(** * Release resolution for the GitHub provider (pkg/providers/github.go)

    A shallow embedding of the provider in [pkg/providers/github.go]: the
    URL parser [newGitHub], the release resolver [getAnyLatestRelease], and
    the two entry points [Fetch] and [GetLatestVersion], together with the
    parts of Go's [strings], [context] and [crypto/sha256] packages the
    file calls.  A run-time panic is an outcome of its own; the requests to
    the hosting API are an effect, kept in a log; the log lines the code
    writes ([log.Infof], [log.Debugf]) are left out. *)

From Stdlib Require Import ZArith List String Ascii Bool Lia.
Import ListNotations.
Open Scope string_scope.

(** ** Go's [strings] package

    A Go string is a sequence of bytes; [string] (a list of [ascii]) has the
    same shape.  Only the three functions the provider calls are embedded. *)
Module strings.

(** [strings.HasPrefix(s, prefix)]. *)
Fixpoint HasPrefix (s prefix : string) {struct prefix} : bool :=
  match prefix, s with
  | EmptyString, _ => true
  | String _ _, EmptyString => false
  | String p prefix', String c s' => Ascii.eqb c p && HasPrefix s' prefix'
  end.

(** [strings.Contains(s, substr)]: [substr] starts at some offset of [s]. *)
Fixpoint Contains (s substr : string) : bool :=
  HasPrefix s substr ||
  match s with
  | EmptyString => false
  | String _ s' => Contains s' substr
  end.

(** [strings.Split(s, sep)] for a separator of one byte, which is how the
    provider calls it ([sep = "/"]): the substrings between the separators,
    so one more element than there are separators, and [[""]] for the empty
    string. *)
Fixpoint Split (s : string) (sep : ascii) : list string :=
  match s with
  | EmptyString => [EmptyString]
  | String c s' =>
      if Ascii.eqb c sep then EmptyString :: Split s' sep
      else match Split s' sep with
           | hd :: tl => String c hd :: tl
           | [] => [String c EmptyString]
           end
  end.

(** [strings.Join(elems, sep)]. *)
Fixpoint Join (elems : list string) (sep : string) : string :=
  match elems with
  | [] => EmptyString
  | [x] => x
  | x :: rest => x ++ sep ++ Join rest sep
  end.

End strings.

(** ** Go's [crypto/sha256] package

    The accumulator behind [sha256.New()], after the package's [digest]
    struct: the eight chaining words, the bytes of the block that is not
    full yet (the struct's [x[:nx]]) and the count of bytes written.  A byte
    and a 32-bit word are integers with the wrap-around written out. *)
Module sha256.
Local Open Scope Z_scope.

Definition chunk : nat := 64.

Definition u32 (v : Z) : Z := v mod 2 ^ 32.

Definition add32 (a b : Z) : Z := u32 (a + b).

(** [bits.RotateLeft32(v, -n)]. *)
Definition rotr (v n : Z) : Z :=
  Z.lor (Z.shiftr v n) (u32 (Z.shiftl v (32 - n))).

Definition init : list Z :=
  [0x6a09e667; 0xbb67ae85; 0x3c6ef372; 0xa54ff53a;
   0x510e527f; 0x9b05688c; 0x1f83d9ab; 0x5be0cd19].

Definition _K : list Z :=
  [0x428A2F98; 0x71374491; 0xB5C0FBCF; 0xE9B5DBA5; 0x3956C25B; 0x59F111F1;
   0x923F82A4; 0xAB1C5ED5; 0xD807AA98; 0x12835B01; 0x243185BE; 0x550C7DC3;
   0x72BE5D74; 0x80DEB1FE; 0x9BDC06A7; 0xC19BF174; 0xE49B69C1; 0xEFBE4786;
   0x0FC19DC6; 0x240CA1CC; 0x2DE92C6F; 0x4A7484AA; 0x5CB0A9DC; 0x76F988DA;
   0x983E5152; 0xA831C66D; 0xB00327C8; 0xBF597FC7; 0xC6E00BF3; 0xD5A79147;
   0x06CA6351; 0x14292967; 0x27B70A85; 0x2E1B2138; 0x4D2C6DFC; 0x53380D13;
   0x650A7354; 0x766A0ABB; 0x81C2C92E; 0x92722C85; 0xA2BFE8A1; 0xA81A664B;
   0xC24B8B70; 0xC76C51A3; 0xD192E819; 0xD6990624; 0xF40E3585; 0x106AA070;
   0x19A4C116; 0x1E376C08; 0x2748774C; 0x34B0BCB5; 0x391C0CB3; 0x4ED8AA4A;
   0x5B9CCA4F; 0x682E6FF3; 0x748F82EE; 0x78A5636F; 0x84C87814; 0x8CC70208;
   0x90BEFFFA; 0xA4506CEB; 0xBEF9A3F7; 0xC67178F2].

Record digest : Type := mkDigest {
  h : list Z;
  x : list Z;
  len : Z
}.

(** [sha256.New()]: a digest after [Reset]. *)
Definition New : digest := {| h := init; x := []; len := 0 |}.

(** The first sixteen words of the schedule: the block read big-endian. *)
Fixpoint be_words (n : nat) (p : list Z) : list Z :=
  match n, p with
  | S n', b0 :: b1 :: b2 :: b3 :: p' =>
      Z.lor (Z.lor (Z.shiftl b0 24) (Z.shiftl b1 16))
            (Z.lor (Z.shiftl b2 8) b3) :: be_words n' p'
  | _, _ => []
  end.

(** The loop [for i := 16; i < 64; i++], [n] iterations from [i = len(w)]. *)
Fixpoint schedule (n : nat) (w : list Z) : list Z :=
  match n with
  | O => w
  | S n' =>
      let i := List.length w in
      let v1 := nth (i - 2) w 0 in
      let t1 := Z.lxor (Z.lxor (rotr v1 17) (rotr v1 19)) (Z.shiftr v1 10) in
      let v2 := nth (i - 15) w 0 in
      let t2 := Z.lxor (Z.lxor (rotr v2 7) (rotr v2 18)) (Z.shiftr v2 3) in
      schedule n'
        (w ++ [add32 (add32 (add32 t1 (nth (i - 7) w 0)) t2) (nth (i - 16) w 0)])
  end.

(** One iteration of the loop over the 64 rounds. *)
Definition round (s : list Z) (kw : Z * Z) : list Z :=
  match s with
  | [a; b; c; d; e; f; g; hh] =>
      let t1 :=
        add32 (add32 (add32 (add32 hh
          (Z.lxor (Z.lxor (rotr e 6) (rotr e 11)) (rotr e 25)))
          (Z.lxor (Z.land e f) (Z.land (Z.lnot e) g)))
          (fst kw)) (snd kw) in
      let t2 :=
        add32 (Z.lxor (Z.lxor (rotr a 2) (rotr a 13)) (rotr a 22))
              (Z.lxor (Z.lxor (Z.land a b) (Z.land a c)) (Z.land b c)) in
      [add32 t1 t2; a; b; c; add32 d t1; e; f; g]
  | _ => s
  end.

(** [blockGeneric] on one chunk. *)
Definition block1 (hs : list Z) (p : list Z) : list Z :=
  let w := schedule 48 (be_words 16 p) in
  let s := fold_left round (combine _K w) hs in
  map (fun ab => add32 (fst ab) (snd ab)) (combine hs s).

(** [blockGeneric]: the loop [for len(p) >= chunk], [n] chunks. *)
Fixpoint block (n : nat) (hs : list Z) (p : list Z) : list Z :=
  match n with
  | O => hs
  | S n' => block n' (block1 hs (firstn chunk p)) (skipn chunk p)
  end.

(** The [Write] method of the digest: the buffered bytes and [p] are hashed chunk by chunk,
    what is left of them stays buffered. *)
Definition Write (d : digest) (p : list Z) : digest :=
  let buf := (x d ++ p)%list in
  let n := Nat.div (List.length buf) chunk in
  {| h := block n (h d) buf;
     x := skipn (n * chunk) buf;
     len := len d + Z.of_nat (List.length p) |}.

(** [binary.BigEndian.PutUint64] and [PutUint32]. *)
Fixpoint be_bytes (n : nat) (v : Z) : list Z :=
  match n with
  | O => []
  | S n' => (Z.shiftr v (8 * Z.of_nat n') mod 256) :: be_bytes n' v
  end.

(** The [checkSum] method: padding, the length in bits, the words as bytes. *)
Definition checkSum (d : digest) : list Z :=
  let l := len d in
  let pad := if l mod 64 <? 56 then 56 - l mod 64 else 64 + 56 - l mod 64 in
  let d1 := Write d (0x80 :: repeat 0 (Z.to_nat pad - 1)) in
  let d2 := Write d1 (be_bytes 8 (Z.shiftl l 3 mod 2 ^ 64)) in
  flat_map (be_bytes 4) (h d2).

(** The [Sum] method: works on a copy, so [d] is unchanged. *)
Definition Sum (d : digest) (b : list Z) : list Z := (b ++ checkSum d)%list.

(** The digest of the empty input (FIPS 180-4 test vector). *)
Definition empty_digest : list Z :=
  [0xe3; 0xb0; 0xc4; 0x42; 0x98; 0xfc; 0x1c; 0x14;
   0x9a; 0xfb; 0xf4; 0xc8; 0x99; 0x6f; 0xb9; 0x24;
   0x27; 0xae; 0x41; 0xe4; 0x64; 0x9b; 0x93; 0x4c;
   0xa4; 0x95; 0x99; 0x1b; 0x78; 0x52; 0xb8; 0x55].

End sha256.

(** ** Slices and indexing with Go's run-time checks *)

(** [s[i]]: [None] stands for the run-time panic "index out of range". *)
Definition index {A : Type} (s : list A) (i : nat) : option A := nth_error s i.

(** [s[low:]]: in range when [low <= len(s)]; [None] stands for the run-time
    panic "slice bounds out of range". *)
Definition slice_from {A : Type} (s : list A) (low : nat) : option (list A) :=
  if Nat.leb low (List.length s) then Some (skipn low s) else None.

(** ** Errors and results *)

(** A value of Go's [error] interface, by its dynamic type: the API client's
    [*github.ErrorResponse] with the HTTP status of its response, the error
    [fmt.Errorf] builds, and any other type (a rate-limit or transport
    error). *)
Inductive error : Type :=
| ErrorResponse (StatusCode : Z) (Message : string)
| errorString (s : string)
| otherError (kind detail : string).

(** A pair [(value, err)] as the client and the provider return it. *)
Inductive result (A : Type) : Type :=
| Ok (a : A)
| Err (err : error).
Arguments Ok {A} a.
Arguments Err {A} err.

(** What a call that may panic ends in. *)
Inductive outcome (A : Type) : Type :=
| Ret (a : A)
| Raise (err : error)
| Panic (msg : string).
Arguments Ret {A} a.
Arguments Raise {A} err.
Arguments Panic {A} msg.

(** [http.StatusNotFound]. *)
Definition StatusNotFound : Z := 404.

(** ** Go's [context] package *)
Module context.

Inductive Context : Type :=
| Background
| TODO
| WithCancel (parent : Context)
| WithDeadline (parent : Context) (deadline : Z).

(** Whether [ctx.Done()] can ever be closed: it is nil for [Background()]
    and [TODO()], which are never cancelled and carry no deadline. *)
Definition cancellable (ctx : Context) : bool :=
  match ctx with
  | Background | TODO => false
  | WithCancel _ | WithDeadline _ _ => true
  end.

End context.

(** ** The API client (go-github) as the provider sees it *)
Module github.

Record ReleaseAsset : Type := mkReleaseAsset {
  Name : option string;
  BrowserDownloadURL : option string
}.

(** The getters return the zero value for a nil field. *)
Definition GetName (a : ReleaseAsset) : string :=
  match Name a with Some v => v | None => "" end.

Definition GetBrowserDownloadURL (a : ReleaseAsset) : string :=
  match BrowserDownloadURL a with Some v => v | None => "" end.

Record RepositoryRelease : Type := mkRelease {
  TagName : option string;
  HTMLURL : option string;
  Assets : list ReleaseAsset
}.

Definition GetTagName (r : RepositoryRelease) : string :=
  match TagName r with Some v => v | None => "" end.

Definition GetHTMLURL (r : RepositoryRelease) : string :=
  match HTMLURL r with Some v => v | None => "" end.

Record ListOptions : Type := mkListOptions {
  Page : Z;
  PerPage : Z
}.

(** What the hosting API answers to each of the three requests the provider
    makes.  The answers are the client's; the provider only reads them. *)
Record Client : Type := mkClient {
  GetReleaseByTag :
    context.Context -> string -> string -> string -> result RepositoryRelease;
  GetLatestRelease :
    context.Context -> string -> string -> result RepositoryRelease;
  ListReleases :
    context.Context -> string -> string -> ListOptions ->
    result (list RepositoryRelease)
}.

(** One outbound request, with the context it was made under. *)
Inductive Call : Type :=
| CallGetReleaseByTag (ctx : context.Context) (owner repo tag : string)
| CallGetLatestRelease (ctx : context.Context) (owner repo : string)
| CallListReleases (ctx : context.Context) (owner repo : string)
                   (opts : ListOptions).

Definition call_ctx (c : Call) : context.Context :=
  match c with
  | CallGetReleaseByTag ctx _ _ _ => ctx
  | CallGetLatestRelease ctx _ _ => ctx
  | CallListReleases ctx _ _ _ => ctx
  end.

Definition is_list_call (c : Call) : bool :=
  match c with
  | CallListReleases _ _ _ _ => true
  | _ => false
  end.

End github.

(** ** Outbound requests as an effect

    A computation threads the log of the requests made so far; a request
    appends itself to the log and yields the client's answer. *)
Definition IO (A : Type) : Type := list github.Call -> A * list github.Call.

Definition ret {A : Type} (a : A) : IO A := fun log => (a, log).

Definition bind {A B : Type} (m : IO A) (k : A -> IO B) : IO B :=
  fun log => let (a, log') := m log in k a log'.

Notation "x <- m ;; k" := (bind m (fun x => k))
  (at level 61, m at next level, right associativity).

(** The answer and the requests of a computation started on an empty log. *)
Definition run {A : Type} (m : IO A) : A * list github.Call := m [].

Definition Repositories_GetReleaseByTag (c : github.Client)
    (ctx : context.Context) (owner repo tag : string)
    : IO (result github.RepositoryRelease) :=
  fun log => (github.GetReleaseByTag c ctx owner repo tag,
              (log ++ [github.CallGetReleaseByTag ctx owner repo tag])%list).

Definition Repositories_GetLatestRelease (c : github.Client)
    (ctx : context.Context) (owner repo : string)
    : IO (result github.RepositoryRelease) :=
  fun log => (github.GetLatestRelease c ctx owner repo,
              (log ++ [github.CallGetLatestRelease ctx owner repo])%list).

Definition Repositories_ListReleases (c : github.Client)
    (ctx : context.Context) (owner repo : string) (opts : github.ListOptions)
    : IO (result (list github.RepositoryRelease)) :=
  fun log => (github.ListReleases c ctx owner repo opts,
              (log ++ [github.CallListReleases ctx owner repo opts])%list).

(** ** Package [assets] *)
Module assets.

(** Modelled from the spec: the struct [assets.Asset], declared in another
    file of the repository; the two fields are the ones the candidate
    builder sets, "{Name: string, URL: string}". *)
Record Asset : Type := mkAsset {
  Name : string;
  URL : string
}.

End assets.

(** ** Package [providers]: the GitHub provider *)
Module providers.

(** The part of [url.URL] the parser reads. *)
Record URL : Type := mkURL {
  Scheme : string;
  Host : string;
  Path : string
}.

(** [type gitHub struct]. *)
Record gitHub : Type := mkGitHub {
  url : URL;
  client : github.Client;
  owner : string;
  repo : string;
  tag : string
}.

(** Modelled from the spec: the struct [File], declared in another file of
    the package; the fields are the four [Fetch] sets, "{Data: byte stream,
    Name: sanitized string, Hash: empty hash accumulator, Version:
    string}". *)
Record File (Reader : Type) : Type := mkFile {
  Data : Reader;
  Name : string;
  Hash : sha256.digest;
  Version : string
}.
Arguments mkFile {Reader} _ _ _ _.
Arguments Data {Reader} _.
Arguments Name {Reader} _.
Arguments Hash {Reader} _.
Arguments Version {Reader} _.

(** ** A repository to run the provider on

    [owner/repo] has two releases, both pre-releases, so the hosting API
    has no latest release for it.  The collaborators pick the first
    candidate and hand back its name with the bytes [data]. *)
Definition sample_R1 : github.RepositoryRelease :=
  github.mkRelease (Some "v2.0.0-rc1")
    (Some "https://github.com/owner/repo/releases/tag/v2.0.0-rc1")
    [github.mkReleaseAsset (Some "tool_linux_amd64")
       (Some "https://github.com/owner/repo/releases/download/v2.0.0-rc1/tool_linux_amd64");
     github.mkReleaseAsset (Some "tool_darwin_amd64")
       (Some "https://github.com/owner/repo/releases/download/v2.0.0-rc1/tool_darwin_amd64")].

Definition sample_R2 : github.RepositoryRelease :=
  github.mkRelease (Some "v1.9.0-beta")
    (Some "https://github.com/owner/repo/releases/tag/v1.9.0-beta") [].

Definition sample_notFound : error := ErrorResponse StatusNotFound "Not Found".

Definition sample_rateLimit : error :=
  otherError "*github.RateLimitError" "API rate limit exceeded".

(** The API of a repository whose listing answers [listing]. *)
Definition sample_client
    (listing : result (list github.RepositoryRelease)) : github.Client :=
  {| github.GetReleaseByTag := fun _ _ _ t =>
       if String.eqb t "v2.0.0-rc1" then Ok sample_R1 else Err sample_notFound;
     github.GetLatestRelease := fun _ _ _ => Err sample_notFound;
     github.ListReleases := fun _ _ _ _ => listing |}.

Definition sample_url : URL := mkURL "https" "github.com" "/owner/repo".

Definition sample_provider
    (listing : result (list github.RepositoryRelease)) (t : string) : gitHub :=
  mkGitHub sample_url (sample_client listing) "owner" "repo" t.

Definition sample_FilterAssets (repoName : string) (cs : list assets.Asset)
    : result assets.Asset :=
  match cs with
  | c :: _ => Ok c
  | [] => Err (errorString "no candidate")
  end.

Definition sample_ProcessURL (a : assets.Asset) : result (string * list Z) :=
  Ok (assets.Name a, [127; 69; 76; 70]%Z).

Definition sample_SanitizeName (name version : string) : string :=
  name ++ "-" ++ version.

Definition sample_NewClient (tc : option string) : github.Client :=
  sample_client (Ok [sample_R1; sample_R2]).

Definition sample_URL_String (u : URL) : string :=
  if String.eqb (Scheme u) "" then Host u ++ Path u
  else Scheme u ++ "://" ++ Host u ++ Path u.

Definition sample_Getenv (key : string) : string := "".

(** The artifact [Fetch] returns for the sample repository, unpinned. *)
Definition sample_File : File (list Z) :=
  mkFile [127; 69; 76; 70]%Z "tool_linux_amd64-v2.0.0-rc1" sha256.New
         "v2.0.0-rc1".

(** The API of a repository that answers every request with [err], and an
    environment that holds a token. *)
Definition sample_forbidden : error := ErrorResponse 403 "Forbidden".

Definition sample_failing_client (err : error) : github.Client :=
  {| github.GetReleaseByTag := fun _ _ _ _ => Err err;
     github.GetLatestRelease := fun _ _ _ => Err err;
     github.ListReleases := fun _ _ _ _ => Err err |}.

Definition sample_token_Getenv (key : string) : string :=
  if String.eqb key "GITHUB_AUTH_TOKEN" then "secret" else "".

Section Provider.

(** The collaborators of package [assets] and the libraries' constructors
    are outside the file; the provider is embedded over them.  [Reader] is
    the [io.Reader] that [ProcessURL] hands back. *)
Variable Reader : Type.
Variable FilterAssets : string -> list assets.Asset -> result assets.Asset.
Variable ProcessURL : assets.Asset -> result (string * Reader).
Variable SanitizeName : string -> string -> string.
(** [github.NewClient(tc)], by the token of [tc] ([None] for a nil [tc]). *)
Variable NewClient : option string -> github.Client.
(** [u.String()]. *)
Variable URL_String : URL -> string.

(** The type assertion of [err] to the client's [ErrorResponse] succeeds
    and the status of its response is [http.StatusNotFound]. *)
Definition isNotFound (err : error) : bool :=
  match err with
  | ErrorResponse code _ => Z.eqb code StatusNotFound
  | _ => false
  end.

(** [func (g *gitHub) getAnyLatestRelease(ctx)]. *)
Definition getAnyLatestRelease (g : gitHub) (ctx : context.Context)
    : IO (result github.RepositoryRelease) :=
  r <- Repositories_GetLatestRelease (client g) ctx (owner g) (repo g) ;;
  match r with
  | Err err =>
      if isNotFound err then
        l <- Repositories_ListReleases (client g) ctx (owner g) (repo g)
               {| github.Page := 0; github.PerPage := 1 |} ;;
        match l with
        | Err listErr => ret (Err listErr)
        | Ok releases =>
            match releases with
            | r0 :: _ => ret (Ok r0)
            | [] => ret (Err err)
            end
        end
      else ret (Err err)
  | Ok release => ret (Ok release)
  end.

(** The loop of [Fetch] over [release.Assets]: one candidate is appended
    per attachment. *)
Definition candidatesOf (release : github.RepositoryRelease)
    : list assets.Asset :=
  fold_left
    (fun candidates a =>
       (candidates ++
        [assets.mkAsset (github.GetName a) (github.GetBrowserDownloadURL a)])%list)
    (github.Assets release) [].

(** [func (g *gitHub) Fetch()]. *)
Definition Fetch (g : gitHub) : IO (result (File Reader)) :=
  r <- (if Nat.ltb 0 (String.length (tag g))
        then Repositories_GetReleaseByTag (client g) context.TODO
               (owner g) (repo g) (tag g)
        else getAnyLatestRelease g context.TODO) ;;
  match r with
  | Err err => ret (Err err)
  | Ok release =>
      let candidates := candidatesOf release in
      match FilterAssets (repo g) candidates with
      | Err err => ret (Err err)
      | Ok gf =>
          match ProcessURL gf with
          | Err err => ret (Err err)
          | Ok (name, outputFile) =>
              let version := github.GetTagName release in
              ret (Ok (mkFile outputFile (SanitizeName name version)
                              sha256.New version))
          end
      end
  end.

(** [func (g *gitHub) GetLatestVersion()]: the three returned values. *)
Definition GetLatestVersion (g : gitHub) : IO (string * string * option error) :=
  r <- getAnyLatestRelease g context.TODO ;;
  match r with
  | Err err => ret ("", "", Some err)
  | Ok release =>
      ret (github.GetTagName release, github.GetHTMLURL release, None)
  end.

(** [func (g *gitHub) GetID()]. *)
Definition GetID (g : gitHub) : string := "github".

(** The loop [for i, p := range ps] of [newGitHub]: [rest] is what is left
    of [ps] from index [i] on, [tag] the variable the loop assigns. *)
Fixpoint tagLoop (ps : list string) (i : nat) (rest : list string)
    (tag : string) : outcome string :=
  match rest with
  | [] => Ret tag
  | p :: rest' =>
      if String.eqb p "releases" then
        match slice_from ps (i + 2) with
        | Some sl => tagLoop ps (S i) rest' (strings.Join sl "/")
        | None => Panic "slice bounds out of range"
        end
      else tagLoop ps (S i) rest' tag
  end.

(** The error [newGitHub] builds with [fmt.Errorf]. *)
Definition parseError (u : URL) : error :=
  errorString ("Error parsing Github URL " ++ URL_String u ++
               ", can't find owner and repo").

(** [func newGitHub(u *url.URL)]; [Getenv] is [os.Getenv]. *)
Definition newGitHub (Getenv : string -> string) (u : URL) : outcome gitHub :=
  let s := strings.Split (Path u) "/" in
  if Nat.ltb (List.length s) 2 then Raise (parseError u)
  else
    let tagged :=
      if strings.Contains (Path u) "/releases/" then
        let ps := strings.Split (Path u) "/" in
        tagLoop ps 0 ps ""
      else Ret "" in
    match tagged with
    | Ret tag =>
        let token := Getenv "GITHUB_AUTH_TOKEN" in
        let tc := if String.eqb token "" then None else Some token in
        let client := NewClient tc in
        match index s 1, index s 2 with
        | Some o, Some r => Ret (mkGitHub u client o r tag)
        | _, _ => Panic "index out of range"
        end
    | Raise err => Raise err
    | Panic msg => Panic msg
    end.

(** ** The claims that fail, as the specification words them *)

(** C9: the context the caller holds is the context of every outbound
    request. *)
Definition threads (ctx : context.Context) (calls : list github.Call) : Prop :=
  Forall (fun c => github.call_ctx c = ctx) calls.

(** The segments of a path that are not empty. *)
Definition nonEmptySegments (path : string) : list string :=
  filter (fun seg => negb (String.eqb seg "")) (strings.Split path "/").

(** C4: owner and repository are the first two non-empty segments, and the
    parser returns its error when there are fewer than two. *)
Definition parses_first_two (Getenv : string -> string) (u : URL) : Prop :=
  match nonEmptySegments (Path u) with
  | o :: r :: _ =>
      exists g, newGitHub Getenv u = Ret g /\ owner g = o /\ repo g = r
  | _ => newGitHub Getenv u = Raise (parseError u)
  end.

(** C3: the tag of a download URL is the one segment [v1.2.3]. *)
Definition download_tag_is_segment (Getenv : string -> string) (u : URL) : Prop :=
  exists g, newGitHub Getenv u = Ret g /\ tag g = "v1.2.3".

(** ** The library functions on known inputs *)

Example Split_owner_repo :
  strings.Split "/owner/repo" "/" = [""; "owner"; "repo"].
Proof. reflexivity. Qed.

Example Split_empty : strings.Split "" "/" = [""].
Proof. reflexivity. Qed.

Example sha256_abc :
  sha256.Sum (sha256.Write sha256.New [97; 98; 99]%Z) [] =
  [0xba; 0x78; 0x16; 0xbf; 0x8f; 0x01; 0xcf; 0xea;
   0x41; 0x41; 0x40; 0xde; 0x5d; 0xae; 0x22; 0x23;
   0xb0; 0x03; 0x61; 0xa3; 0x96; 0x17; 0x7a; 0x9c;
   0xb4; 0x10; 0xff; 0x61; 0xf2; 0x00; 0x15; 0xad]%Z.
Proof. vm_compute. reflexivity. Qed.

Example sha256_empty : sha256.Sum sha256.New [] = sha256.empty_digest.
Proof. vm_compute. reflexivity. Qed.

(** ** The release resolver *)

Ltac io_unfold :=
  unfold run, bind, ret, Repositories_GetReleaseByTag,
    Repositories_GetLatestRelease, Repositories_ListReleases in *.

(** A latest release is returned as it is, after the one request. *)
Lemma getAnyLatestRelease_success (g : gitHub) (ctx : context.Context)
    (release : github.RepositoryRelease) (log : list github.Call) :
  github.GetLatestRelease (client g) ctx (owner g) (repo g) = Ok release ->
  getAnyLatestRelease g ctx log =
    (Ok release,
     (log ++ [github.CallGetLatestRelease ctx (owner g) (repo g)])%list).
Proof.
  intros Hlatest. unfold getAnyLatestRelease. io_unfold.
  rewrite Hlatest. reflexivity.
Qed.

(** Any error other than a 404 [ErrorResponse] is returned after the one
    request. *)
Lemma getAnyLatestRelease_other_error (g : gitHub) (ctx : context.Context)
    (err : error) (log : list github.Call) :
  github.GetLatestRelease (client g) ctx (owner g) (repo g) = Err err ->
  isNotFound err = false ->
  getAnyLatestRelease g ctx log =
    (Err err,
     (log ++ [github.CallGetLatestRelease ctx (owner g) (repo g)])%list).
Proof.
  intros Hlatest Hnf. unfold getAnyLatestRelease. io_unfold.
  rewrite Hlatest, Hnf. reflexivity.
Qed.

(** C1. With no latest release (the request fails with a 404
    [ErrorResponse]) and a listing that answers [R1 :: rest], the resolver
    returns [R1], after exactly the two requests; an unpinned [Fetch] that
    succeeds returns an artifact of [R1], and [GetLatestVersion] returns
    the tag and the page of [R1]. *)
Theorem getAnyLatestRelease_fallback_first (g : gitHub)
    (ctx : context.Context) (msg : string)
    (R1 : github.RepositoryRelease) (rest : list github.RepositoryRelease)
    (log : list github.Call) :
  github.GetLatestRelease (client g) ctx (owner g) (repo g) =
    Err (ErrorResponse StatusNotFound msg) ->
  github.ListReleases (client g) ctx (owner g) (repo g)
    {| github.Page := 0; github.PerPage := 1 |} = Ok (R1 :: rest) ->
  getAnyLatestRelease g ctx log =
    (Ok R1,
     (log ++ [github.CallGetLatestRelease ctx (owner g) (repo g);
              github.CallListReleases ctx (owner g) (repo g)
                {| github.Page := 0; github.PerPage := 1 |}])%list) /\
  (ctx = context.TODO ->
   fst (GetLatestVersion g log) =
     (github.GetTagName R1, github.GetHTMLURL R1, None) /\
   (tag g = "" ->
    forall f log', Fetch g log = (Ok f, log') ->
                   Version f = github.GetTagName R1)).
Proof.
  intros Hlatest Hlist.
  assert (Hres : getAnyLatestRelease g ctx log =
    (Ok R1,
     (log ++ [github.CallGetLatestRelease ctx (owner g) (repo g);
              github.CallListReleases ctx (owner g) (repo g)
                {| github.Page := 0; github.PerPage := 1 |}])%list)).
  { unfold getAnyLatestRelease. io_unfold.
    rewrite Hlatest. cbn [isNotFound]. rewrite Z.eqb_refl, Hlist.
    rewrite <- app_assoc. reflexivity. }
  split; [exact Hres |].
  intros ->. split.
  - unfold GetLatestVersion, bind. rewrite Hres. reflexivity.
  - intros Htag f log'. unfold Fetch, bind. rewrite Htag.
    cbn [String.length Nat.ltb Nat.leb]. rewrite Hres.
    destruct (FilterAssets (repo g) (candidatesOf R1)) as [gf | e1];
      [| discriminate].
    destruct (ProcessURL gf) as [[name outputFile] | e2]; [| discriminate].
    unfold ret. intros Heq. injection Heq as <- _. reflexivity.
Qed.

(** What the entry points return when the resolver fails. *)
Lemma entry_points_resolver_error (g : gitHub) (err : error)
    (log : list github.Call) :
  fst (getAnyLatestRelease g context.TODO log) = Err err ->
  fst (GetLatestVersion g log) = ("", "", Some err) /\
  (tag g = "" -> fst (Fetch g log) = Err err).
Proof.
  intros Hres. split.
  - unfold GetLatestVersion, bind.
    destruct (getAnyLatestRelease g context.TODO log) as [r log1].
    cbn [fst] in Hres. subst r. reflexivity.
  - intros Htag. unfold Fetch, bind. rewrite Htag.
    cbn [String.length Nat.ltb Nat.leb].
    destruct (getAnyLatestRelease g context.TODO log) as [r log1].
    cbn [fst] in Hres. subst r. reflexivity.
Qed.

(** C2. With no latest release (a 404 [ErrorResponse]) and a listing that
    succeeds with no release, the resolver fails with the error of the
    first request, the very value it received; so do [GetLatestVersion] and
    an unpinned [Fetch]. *)
Theorem getAnyLatestRelease_empty_list (g : gitHub)
    (ctx : context.Context) (msg : string) (log : list github.Call) :
  github.GetLatestRelease (client g) ctx (owner g) (repo g) =
    Err (ErrorResponse StatusNotFound msg) ->
  github.ListReleases (client g) ctx (owner g) (repo g)
    {| github.Page := 0; github.PerPage := 1 |} = Ok [] ->
  fst (getAnyLatestRelease g ctx log) =
    Err (ErrorResponse StatusNotFound msg) /\
  (ctx = context.TODO ->
   fst (GetLatestVersion g log) =
     ("", "", Some (ErrorResponse StatusNotFound msg)) /\
   (tag g = "" ->
    fst (Fetch g log) = Err (ErrorResponse StatusNotFound msg))).
Proof.
  intros Hlatest Hlist.
  assert (Hres : fst (getAnyLatestRelease g ctx log) =
                 Err (ErrorResponse StatusNotFound msg)).
  { unfold getAnyLatestRelease. io_unfold.
    rewrite Hlatest. cbn [isNotFound]. rewrite Z.eqb_refl, Hlist.
    reflexivity. }
  split; [exact Hres |].
  intros ->. now apply entry_points_resolver_error.
Qed.

(** C10. With no latest release (a 404 [ErrorResponse]) and a listing that
    itself fails with [listErr], the resolver fails with [listErr]; so do
    [GetLatestVersion] and an unpinned [Fetch]. *)
Theorem getAnyLatestRelease_list_error (g : gitHub)
    (ctx : context.Context) (msg : string) (listErr : error)
    (log : list github.Call) :
  github.GetLatestRelease (client g) ctx (owner g) (repo g) =
    Err (ErrorResponse StatusNotFound msg) ->
  github.ListReleases (client g) ctx (owner g) (repo g)
    {| github.Page := 0; github.PerPage := 1 |} = Err listErr ->
  fst (getAnyLatestRelease g ctx log) = Err listErr /\
  (ctx = context.TODO ->
   fst (GetLatestVersion g log) = ("", "", Some listErr) /\
   (tag g = "" -> fst (Fetch g log) = Err listErr)).
Proof.
  intros Hlatest Hlist.
  assert (Hres : fst (getAnyLatestRelease g ctx log) = Err listErr).
  { unfold getAnyLatestRelease. io_unfold.
    rewrite Hlatest. cbn [isNotFound]. rewrite Z.eqb_refl, Hlist.
    reflexivity. }
  split; [exact Hres |].
  intros ->. now apply entry_points_resolver_error.
Qed.

(** The requests of the resolver all carry the context it was given. *)
Lemma getAnyLatestRelease_calls (g : gitHub) (ctx : context.Context)
    (log : list github.Call) :
  exists more,
    snd (getAnyLatestRelease g ctx log) = (log ++ more)%list /\
    Forall (fun c => github.call_ctx c = ctx) more.
Proof.
  unfold getAnyLatestRelease. io_unfold.
  destruct (github.GetLatestRelease (client g) ctx (owner g) (repo g))
    as [release | err]; cbn [fst snd].
  - eexists; split; [reflexivity | repeat constructor].
  - destruct (isNotFound err).
    + destruct (github.ListReleases (client g) ctx (owner g) (repo g) _)
        as [[| r0 releases] | listErr]; cbn [fst snd];
        rewrite <- app_assoc; eexists; (split; [reflexivity | repeat constructor]).
    + eexists; split; [reflexivity | repeat constructor].
Qed.

(** ** The entry points *)

Lemma ltb_length_nonempty (t : string) :
  t <> "" -> Nat.ltb 0 (String.length t) = true.
Proof.
  destruct t as [| c t']; [congruence | reflexivity].
Qed.

(** C5. With a pinned tag, [Fetch] makes one request, the one for the
    release of that tag, whatever it answers; no listing is requested; and
    an error of that request is what [Fetch] returns. *)
Theorem Fetch_pinned_single_call (g : gitHub) :
  tag g <> "" ->
  snd (run (Fetch g)) =
    [github.CallGetReleaseByTag context.TODO (owner g) (repo g) (tag g)] /\
  existsb github.is_list_call (snd (run (Fetch g))) = false /\
  (forall err,
      github.GetReleaseByTag (client g) context.TODO (owner g) (repo g) (tag g)
        = Err err ->
      fst (run (Fetch g)) = Err err).
Proof.
  intros Htag. unfold Fetch. rewrite (ltb_length_nonempty _ Htag). io_unfold.
  destruct (github.GetReleaseByTag (client g) context.TODO (owner g) (repo g)
              (tag g)) as [release | e].
  - destruct (FilterAssets (repo g) (candidatesOf release)) as [gf | e1];
      [destruct (ProcessURL gf) as [[name outputFile] | e2] |];
      cbn; (repeat split; try reflexivity); intros err' H; discriminate H.
  - cbn. repeat split; try reflexivity. intros err' H. congruence.
Qed.

(** The loop that builds the candidates, from any list built so far. *)
Lemma fold_left_snoc_map {A B : Type} (f : A -> B) (l : list A) (acc : list B) :
  fold_left (fun cs a => (cs ++ [f a])%list) l acc = (acc ++ map f l)%list.
Proof.
  revert acc. induction l as [| a l IH]; intros acc; cbn.
  - now rewrite app_nil_r.
  - rewrite IH, <- app_assoc. reflexivity.
Qed.

(** C7. The candidates of a release are its attachments, one for one and in
    their order: the i-th candidate has the i-th attachment's name and
    download URL, and there are as many candidates as attachments.  The
    builder is a total function. *)
Theorem candidatesOf_projection (release : github.RepositoryRelease) :
  candidatesOf release =
    map (fun a => assets.mkAsset (github.GetName a)
                                 (github.GetBrowserDownloadURL a))
        (github.Assets release) /\
  List.length (candidatesOf release) = List.length (github.Assets release) /\
  (forall i : nat,
      nth_error (candidatesOf release) i =
      option_map (fun a => assets.mkAsset (github.GetName a)
                                          (github.GetBrowserDownloadURL a))
                 (nth_error (github.Assets release) i)).
Proof.
  assert (Hmap : candidatesOf release =
    map (fun a => assets.mkAsset (github.GetName a)
                                 (github.GetBrowserDownloadURL a))
        (github.Assets release)).
  { unfold candidatesOf. now rewrite fold_left_snoc_map. }
  rewrite Hmap. repeat split.
  - apply length_map.
  - intros i. apply nth_error_map.
Qed.

(** C8. The artifact of a successful [Fetch] carries a new accumulator,
    whose sum after a write of no bytes is the digest of the empty input;
    its version is the tag of the resolved release, and its name is
    [SanitizeName] of the processed name and that tag. *)
Theorem Fetch_artifact_fields (g : gitHub) (log log' : list github.Call)
    (f : File Reader) :
  Fetch g log = (Ok f, log') ->
  Hash f = sha256.New /\
  sha256.Sum (sha256.Write (Hash f) []) [] = sha256.empty_digest /\
  exists release gf name outputFile,
    fst ((if Nat.ltb 0 (String.length (tag g))
          then Repositories_GetReleaseByTag (client g) context.TODO
                 (owner g) (repo g) (tag g)
          else getAnyLatestRelease g context.TODO) log) = Ok release /\
    FilterAssets (repo g) (candidatesOf release) = Ok gf /\
    ProcessURL gf = Ok (name, outputFile) /\
    Data f = outputFile /\
    Version f = github.GetTagName release /\
    Name f = SanitizeName name (github.GetTagName release).
Proof.
  unfold Fetch, bind.
  destruct ((if Nat.ltb 0 (String.length (tag g))
             then Repositories_GetReleaseByTag (client g) context.TODO
                    (owner g) (repo g) (tag g)
             else getAnyLatestRelease g context.TODO) log)
    as [[release | e] log1] eqn:Hres; [| discriminate].
  destruct (FilterAssets (repo g) (candidatesOf release)) as [gf | e1] eqn:Hgf;
    [| discriminate].
  destruct (ProcessURL gf) as [[name outputFile] | e2] eqn:Hproc;
    [| discriminate].
  unfold ret. intros Heq. injection Heq as Hf Hlog. subst f.
  cbn [Hash Name Version Data]. split; [reflexivity |].
  split; [vm_compute; reflexivity |].
  exists release, gf, name, outputFile. cbn [fst]. repeat split; assumption.
Qed.

(** C9, as amended. Neither entry point takes a context: every request of
    [Fetch] and of [GetLatestVersion] is made under [context.TODO()], which
    can never be cancelled; the resolver passes the context it is given to
    each of its requests. *)
Theorem outbound_calls_context (g : gitHub) :
  threads context.TODO (snd (run (Fetch g))) /\
  threads context.TODO (snd (run (GetLatestVersion g))) /\
  context.cancellable context.TODO = false /\
  (forall ctx, threads ctx (snd (run (getAnyLatestRelease g ctx)))).
Proof.
  assert (Hres : forall ctx, threads ctx (snd (run (getAnyLatestRelease g ctx)))).
  { intros ctx. unfold run.
    destruct (getAnyLatestRelease_calls g ctx []) as [more [Hlog Hall]].
    rewrite Hlog. exact Hall. }
  repeat split; try exact Hres.
  - unfold Fetch, run, bind.
    destruct (Nat.ltb 0 (String.length (tag g))).
    + unfold Repositories_GetReleaseByTag.
      destruct (github.GetReleaseByTag (client g) context.TODO (owner g)
                  (repo g) (tag g)) as [release | e].
      * destruct (FilterAssets (repo g) (candidatesOf release)) as [gf | e1];
          [destruct (ProcessURL gf) as [[name outputFile] | e2] |];
          cbn; repeat constructor.
      * cbn. repeat constructor.
    + specialize (Hres context.TODO). unfold run in Hres.
      destruct (getAnyLatestRelease g context.TODO []) as [[release | e] log1];
        cbn [snd] in Hres.
      * destruct (FilterAssets (repo g) (candidatesOf release)) as [gf | e1];
          [destruct (ProcessURL gf) as [[name outputFile] | e2] |];
          cbn; exact Hres.
      * cbn. exact Hres.
  - unfold GetLatestVersion, run, bind.
    specialize (Hres context.TODO). unfold run in Hres.
    destruct (getAnyLatestRelease g context.TODO []) as [[release | e] log1];
      cbn [snd] in Hres; cbn; exact Hres.
Qed.

(** ** The URL parser *)

Lemma Split_nonempty (s : string) (sep : ascii) : strings.Split s sep <> [].
Proof.
  destruct s as [| c s']; cbn; [discriminate |].
  destruct (Ascii.eqb c sep); [discriminate |].
  destruct (strings.Split s' sep); discriminate.
Qed.

(** Splitting around one separator splits both sides. *)
Lemma Split_app_sep (a b : string) (sep : ascii) :
  strings.Split (a ++ String sep b) sep =
  (strings.Split a sep ++ strings.Split b sep)%list.
Proof.
  induction a as [| c a' IH]; cbn.
  - now rewrite Ascii.eqb_refl.
  - destruct (Ascii.eqb c sep); [now rewrite IH |].
    rewrite IH. pose proof (Split_nonempty a' sep) as Hne.
    destruct (strings.Split a' sep) as [| hd tl]; [congruence | reflexivity].
Qed.

Lemma HasPrefix_app (sub b : string) : strings.HasPrefix (sub ++ b) sub = true.
Proof.
  induction sub as [| c sub' IH]; cbn; [reflexivity |].
  now rewrite Ascii.eqb_refl, IH.
Qed.

Lemma Contains_app (a sub b : string) :
  strings.Contains (a ++ sub ++ b) sub = true.
Proof.
  induction a as [| c a' IH].
  - cbn [append]. destruct (sub ++ b) eqn:E; cbn [strings.Contains];
      rewrite <- E, HasPrefix_app; reflexivity.
  - cbn [append strings.Contains]. rewrite IH. apply orb_true_r.
Qed.

Lemma skipn_app_length {A : Type} (a b : list A) (n : nat) :
  skipn (List.length a + n) (a ++ b) = skipn n b.
Proof.
  induction a as [| x a' IH]; cbn; [reflexivity | exact IH].
Qed.

(** No segment [releases] left: the loop keeps the tag it has. *)
Lemma tagLoop_none (ps : list string) (i : nat) (rest : list string)
    (t : string) :
  ~ In "releases" rest -> tagLoop ps i rest t = Ret t.
Proof.
  revert i. induction rest as [| p rest' IH]; intros i Hnot; cbn [tagLoop].
  - reflexivity.
  - destruct (String.eqb_spec p "releases") as [-> | Hp].
    + exfalso. apply Hnot. now left.
    + apply IH. intros Hin. apply Hnot. now right.
Qed.

Lemma slice_from_in_range {A : Type} (s : list A) (low : nat) :
  low <= List.length s -> slice_from s low = Some (skipn low s).
Proof.
  intros Hle. unfold slice_from.
  now replace (Nat.leb low (List.length s)) with true
    by (symmetry; apply Nat.leb_le; exact Hle).
Qed.

Ltac length_of ps Hps :=
  rewrite Hps, ?length_app; cbn [List.length app];
  rewrite ?length_app; cbn [List.length]; lia.

(** The last segment [releases] decides: the tag is what follows the
    segment after it. *)
Lemma tagLoop_last (ps done mid tl : list string) (t : string) :
  ps = (done ++ mid ++ "releases" :: tl)%list ->
  tl <> [] ->
  ~ In "releases" tl ->
  tagLoop ps (List.length done) (mid ++ "releases" :: tl) t =
    Ret (strings.Join (skipn 1 tl) "/").
Proof.
  revert done t. induction mid as [| m mid' IH]; intros done t Hps Htl Hnot.
  - cbn [app tagLoop]. rewrite String.eqb_refl.
    destruct tl as [| q tl']; [congruence |].
    rewrite slice_from_in_range by length_of ps Hps.
    rewrite Hps at 2. cbn [app]. rewrite skipn_app_length.
    now apply tagLoop_none.
  - assert (Hps' : ps = ((done ++ [m]) ++ mid' ++ "releases" :: tl)%list).
    { rewrite <- app_assoc. exact Hps. }
    assert (Hlen : S (List.length done) = List.length (done ++ [m])).
    { rewrite length_app. cbn. lia. }
    cbn [app tagLoop].
    destruct (String.eqb m "releases").
    + rewrite slice_from_in_range by length_of ps Hps.
      rewrite Hlen. now apply IH.
    + rewrite Hlen. now apply IH.
Qed.

(** The loop cannot panic unless the last segment is [releases]. *)
Lemma tagLoop_returns (ps done rest : list string) (t : string) :
  ps = (done ++ rest)%list ->
  last rest "" <> "releases" ->
  exists t', tagLoop ps (List.length done) rest t = Ret t'.
Proof.
  revert done t. induction rest as [| p rest' IH]; intros done t Hps Hlast.
  - now exists t.
  - assert (Hps' : ps = ((done ++ [p]) ++ rest')%list).
    { rewrite <- app_assoc. exact Hps. }
    assert (Hlen : S (List.length done) = List.length (done ++ [p])).
    { rewrite length_app. cbn. lia. }
    cbn [tagLoop].
    destruct (String.eqb_spec p "releases") as [Hp | Hp].
    + destruct rest' as [| q rest'']; [now cbn in Hlast |].
      rewrite slice_from_in_range by length_of ps Hps.
      rewrite Hlen. apply IH; [exact Hps' | exact Hlast].
    + rewrite Hlen. destruct rest' as [| q rest''].
      * now eexists.
      * apply IH; [exact Hps' | exact Hlast].
Qed.

(** A path [pre/releases/suf] in which no segment of [suf] is [releases]:
    the parser returns a provider whose tag is [suf] without its first
    segment. *)
Lemma newGitHub_releases (Getenv : string -> string)
    (sch host pre suf q : string) (tl : list string) :
  strings.Split suf "/" = q :: tl ->
  ~ In "releases" (q :: tl) ->
  exists g,
    newGitHub Getenv (mkURL sch host (pre ++ "/releases/" ++ suf)) = Ret g /\
    tag g = strings.Join tl "/".
Proof.
  intros Hsuf Hnot.
  set (u := mkURL sch host (pre ++ "/releases/" ++ suf)).
  assert (Hsplit : strings.Split (Path u) "/" =
            (strings.Split pre "/" ++ "releases" :: q :: tl)%list).
  { unfold u. cbn [Path].
    change ("/releases/" ++ suf)
      with (String "/" ("releases" ++ String "/" suf)).
    rewrite !Split_app_sep, Hsuf. reflexivity. }
  assert (Hcont : strings.Contains (Path u) "/releases/" = true).
  { unfold u. cbn [Path]. apply Contains_app. }
  pose proof (Split_nonempty pre "/") as Hne.
  unfold newGitHub. cbv zeta. rewrite Hcont, Hsplit.
  destruct (strings.Split pre "/") as [| s0 sp']; [congruence |].
  replace (Nat.ltb (List.length ((s0 :: sp') ++ "releases" :: q :: tl)) 2)
    with false
    by (symmetry; apply Nat.ltb_ge; rewrite length_app; cbn [List.length]; lia).
  assert (Hloop :
    tagLoop ((s0 :: sp') ++ "releases" :: q :: tl) 0
            ((s0 :: sp') ++ "releases" :: q :: tl) "" =
    Ret (strings.Join tl "/")).
  { apply (tagLoop_last _ [] (s0 :: sp') (q :: tl) "" eq_refl);
      [discriminate | exact Hnot]. }
  rewrite Hloop.
  destruct sp' as [| x1 [| x2 sp'']]; cbn [index nth_error app];
    eexists; (split; [reflexivity | reflexivity]).
Qed.

(** C6, as amended. Whatever precedes it in the path, a release-view URL
    ending in [/releases/tag/v1.2.3] is parsed into a provider whose tag is
    [v1.2.3]. *)
Theorem newGitHub_release_view_tag (Getenv : string -> string)
    (sch host pre : string) :
  exists g,
    newGitHub Getenv (mkURL sch host (pre ++ "/releases/tag/v1.2.3")) = Ret g /\
    tag g = "v1.2.3".
Proof.
  destruct (newGitHub_releases Getenv sch host pre "tag/v1.2.3" "tag" ["v1.2.3"])
    as [g [Hg Htag]].
  - reflexivity.
  - cbn. intros [H | [H | []]]; discriminate H.
  - exists g. split; [exact Hg | exact Htag].
Qed.

(** C3, as amended. Whatever precedes it in the path, a download URL ending
    in [/releases/download/v1.2.3/asset.tar.gz] is parsed into a provider
    whose tag is [v1.2.3/asset.tar.gz]: every segment after the qualifier,
    the asset's name included. *)
Theorem newGitHub_download_tag (Getenv : string -> string)
    (sch host pre : string) :
  exists g,
    newGitHub Getenv
      (mkURL sch host (pre ++ "/releases/download/v1.2.3/asset.tar.gz")) = Ret g /\
    tag g = "v1.2.3/asset.tar.gz".
Proof.
  destruct (newGitHub_releases Getenv sch host pre
              "download/v1.2.3/asset.tar.gz" "download"
              ["v1.2.3"; "asset.tar.gz"]) as [g [Hg Htag]].
  - reflexivity.
  - cbn. intros [H | [H | [H | []]]]; discriminate H.
  - exists g. split; [exact Hg | exact Htag].
Qed.

(** C4, as amended. The parser reads owner and repository by position:
    whenever it returns a provider, they are the elements at index 1 and 2
    of the path split on [/], whatever follows them; it does return one
    when the split has three elements or more and does not end in
    [releases]; and it returns its error when the split has fewer than two
    elements. *)
Theorem newGitHub_owner_repo (Getenv : string -> string) (u : URL) :
  (List.length (strings.Split (Path u) "/") < 2 ->
   newGitHub Getenv u = Raise (parseError u)) /\
  (forall s0 o r rest,
      strings.Split (Path u) "/" = s0 :: o :: r :: rest ->
      last (r :: rest) "" <> "releases" ->
      exists g, newGitHub Getenv u = Ret g /\ owner g = o /\ repo g = r) /\
  (forall g,
      newGitHub Getenv u = Ret g ->
      index (strings.Split (Path u) "/") 1 = Some (owner g) /\
      index (strings.Split (Path u) "/") 2 = Some (repo g)).
Proof.
  split; [| split].
  - intros Hlen. unfold newGitHub. cbv zeta.
    now replace (Nat.ltb (List.length (strings.Split (Path u) "/")) 2) with true
      by (symmetry; apply Nat.ltb_lt; exact Hlen).
  - intros s0 o r rest Hsplit Hlast. unfold newGitHub. cbv zeta.
    rewrite Hsplit. cbn [List.length Nat.ltb Nat.leb index nth_error].
    assert (Hloop : exists t,
      (if strings.Contains (Path u) "/releases/"
       then tagLoop (s0 :: o :: r :: rest) 0 (s0 :: o :: r :: rest) ""
       else Ret "") = Ret t).
    { destruct (strings.Contains (Path u) "/releases/"); [| now eexists].
      apply (tagLoop_returns _ [] (s0 :: o :: r :: rest) "" eq_refl).
      exact Hlast. }
    destruct Hloop as [t ->]. eexists. repeat split.
  - intros g Hg. unfold newGitHub in Hg. cbv zeta in Hg.
    destruct (Nat.ltb (List.length (strings.Split (Path u) "/")) 2);
      [discriminate |].
    destruct (if strings.Contains (Path u) "/releases/"
              then tagLoop (strings.Split (Path u) "/") 0
                     (strings.Split (Path u) "/") ""
              else Ret "") as [t | e | m]; try discriminate.
    destruct (index (strings.Split (Path u) "/") 1) as [o |]; [| discriminate].
    destruct (index (strings.Split (Path u) "/") 2) as [r |]; [| discriminate].
    injection Hg as <-. split; reflexivity.
Qed.

(** The guard of the parser lets a split of exactly two elements through,
    and the index of the repository is then out of range. *)
Lemma newGitHub_owner_only_panics (Getenv : string -> string)
    (sch host : string) :
  newGitHub Getenv (mkURL sch host "/owner") = Panic "index out of range".
Proof. reflexivity. Qed.

(** A path that ends in a segment [releases] after a [/releases/] makes the
    slice of the loop start past the end. *)
Lemma newGitHub_trailing_releases_panics (Getenv : string -> string)
    (sch host : string) :
  newGitHub Getenv (mkURL sch host "/owner/repo/releases/tag/releases") =
    Panic "slice bounds out of range".
Proof. reflexivity. Qed.

(** ** Further properties of the resolver and of the entry points *)

(** The branch of [Fetch] that obtains the release: by tag when the
    provider is pinned, the latest one otherwise. *)
Definition resolve (g : gitHub) : IO (result github.RepositoryRelease) :=
  if Nat.ltb 0 (String.length (tag g))
  then Repositories_GetReleaseByTag (client g) context.TODO
         (owner g) (repo g) (tag g)
  else getAnyLatestRelease g context.TODO.

Lemma isNotFound_true (err : error) :
  isNotFound err = true <-> exists msg, err = ErrorResponse StatusNotFound msg.
Proof.
  split.
  - destruct err as [code msg | s | k d]; cbn; try discriminate.
    intros H. apply Z.eqb_eq in H. subst code. now exists msg.
  - intros [msg ->]. reflexivity.
Qed.

Lemma isNotFound_false (err : error) :
  (forall msg, err <> ErrorResponse StatusNotFound msg) -> isNotFound err = false.
Proof.
  intros Hne. destruct (isNotFound err) eqn:E; [| reflexivity].
  apply isNotFound_true in E. destruct E as [msg ->]. now destruct (Hne msg).
Qed.

Lemma Fetch_by_resolve (g : gitHub) (log : list github.Call) :
  Fetch g log =
  (let (r, log1) := resolve g log in
   match r with
   | Err err => (Err err, log1)
   | Ok release =>
       match FilterAssets (repo g) (candidatesOf release) with
       | Err err => (Err err, log1)
       | Ok gf =>
           match ProcessURL gf with
           | Err err => (Err err, log1)
           | Ok (name, outputFile) =>
               (Ok (mkFile outputFile
                      (SanitizeName name (github.GetTagName release))
                      sha256.New (github.GetTagName release)), log1)
           end
       end
   end).
Proof.
  unfold Fetch, resolve, bind.
  destruct ((if Nat.ltb 0 (String.length (tag g))
             then Repositories_GetReleaseByTag (client g) context.TODO
                    (owner g) (repo g) (tag g)
             else getAnyLatestRelease g context.TODO) log) as [[release | e] log1];
    [| reflexivity].
  destruct (FilterAssets (repo g) (candidatesOf release)) as [gf | e1];
    [| reflexivity].
  destruct (ProcessURL gf) as [[name outputFile] | e2]; reflexivity.
Qed.

(** X1. An error of the first request that is not a 404 [ErrorResponse]
    (another status, a rate limit, a transport error) is returned after that
    one request: the resolver does not list, and [GetLatestVersion] and an
    unpinned [Fetch] return the same error. *)
Theorem getAnyLatestRelease_no_fallback (g : gitHub) (ctx : context.Context)
    (err : error) (log : list github.Call) :
  github.GetLatestRelease (client g) ctx (owner g) (repo g) = Err err ->
  (forall msg, err <> ErrorResponse StatusNotFound msg) ->
  getAnyLatestRelease g ctx log =
    (Err err,
     (log ++ [github.CallGetLatestRelease ctx (owner g) (repo g)])%list) /\
  (ctx = context.TODO ->
   fst (GetLatestVersion g log) = ("", "", Some err) /\
   (tag g = "" ->
    Fetch g log =
      (Err err,
       (log ++ [github.CallGetLatestRelease context.TODO (owner g) (repo g)])%list))).
Proof.
  intros Hlatest Hne.
  assert (Hres : getAnyLatestRelease g ctx log =
    (Err err,
     (log ++ [github.CallGetLatestRelease ctx (owner g) (repo g)])%list)).
  { unfold getAnyLatestRelease. io_unfold.
    rewrite Hlatest, (isNotFound_false _ Hne). reflexivity. }
  split; [exact Hres |].
  intros ->. split.
  - unfold GetLatestVersion, bind. rewrite Hres. reflexivity.
  - intros Htag. rewrite Fetch_by_resolve. unfold resolve. rewrite Htag.
    cbn [String.length Nat.ltb Nat.leb]. rewrite Hres. reflexivity.
Qed.

(** The requests of the resolver, and when the second one is made. *)
Lemma resolver_requests (g : gitHub) (ctx : context.Context)
    (log : list github.Call) :
  exists more,
    snd (getAnyLatestRelease g ctx log) =
      (log ++ github.CallGetLatestRelease ctx (owner g) (repo g) :: more)%list /\
    (more = [] \/
     more = [github.CallListReleases ctx (owner g) (repo g)
               {| github.Page := 0; github.PerPage := 1 |}]) /\
    (more <> [] <->
     exists msg,
       github.GetLatestRelease (client g) ctx (owner g) (repo g) =
         Err (ErrorResponse StatusNotFound msg)).
Proof.
  unfold getAnyLatestRelease. io_unfold.
  destruct (github.GetLatestRelease (client g) ctx (owner g) (repo g))
    as [release | err] eqn:Hlatest; cbn [fst snd].
  - exists []. repeat split; [now left | congruence |].
    intros [msg H]. discriminate H.
  - destruct (isNotFound err) eqn:Hnf.
    + exists [github.CallListReleases ctx (owner g) (repo g)
                {| github.Page := 0; github.PerPage := 1 |}].
      apply isNotFound_true in Hnf. destruct Hnf as [msg ->].
      repeat split.
      * destruct (github.ListReleases (client g) ctx (owner g) (repo g) _)
          as [[| r0 releases] | listErr]; cbn [fst snd];
          now rewrite <- app_assoc.
      * now right.
      * intros _. now exists msg.
      * intros _. discriminate.
    + exists []. repeat split; [now left | congruence |].
      intros [msg H]. injection H as ->. discriminate Hnf.
Qed.

(** X2. The resolver always starts with the request for the latest
    release, and makes at most one more: the listing of one release per
    page, for the same repository and under the same context, requested
    exactly when the first request failed with a 404 [ErrorResponse]. *)
Theorem getAnyLatestRelease_requests (g : gitHub) (ctx : context.Context)
    (log : list github.Call) :
  exists more,
    snd (getAnyLatestRelease g ctx log) =
      (log ++ github.CallGetLatestRelease ctx (owner g) (repo g) :: more)%list /\
    (more = [] \/
     more = [github.CallListReleases ctx (owner g) (repo g)
               {| github.Page := 0; github.PerPage := 1 |}]) /\
    (more <> [] <->
     exists msg,
       github.GetLatestRelease (client g) ctx (owner g) (repo g) =
         Err (ErrorResponse StatusNotFound msg)).
Proof.
  destruct (resolver_requests g ctx log) as [more [Hlog [Hshape Hiff]]].
  exists more. split; [exact Hlog | split; [exact Hshape | exact Hiff]].
Qed.

(** Selecting and processing the asset add no request. *)
Lemma Fetch_requests_resolve (g : gitHub) (log : list github.Call) :
  snd (Fetch g log) = snd (resolve g log).
Proof.
  rewrite Fetch_by_resolve.
  destruct (resolve g log) as [[release | e] log1]; [| reflexivity].
  destruct (FilterAssets (repo g) (candidatesOf release)) as [gf | e1];
    [| reflexivity].
  destruct (ProcessURL gf) as [[name outputFile] | e2]; reflexivity.
Qed.

(** X3. The requests of [Fetch] have one of three shapes, all for the
    repository of the provider: the release of the tag when the tag is not
    empty, and otherwise the latest release, alone or followed by the
    listing.  Selecting and processing the asset add no request. *)
Theorem Fetch_requests_shape (g : gitHub) (log : list github.Call) :
  exists more,
    snd (Fetch g log) = (log ++ more)%list /\
    snd (Fetch g log) = snd (resolve g log) /\
    ((tag g <> "" /\
      more = [github.CallGetReleaseByTag context.TODO (owner g) (repo g) (tag g)])
     \/
     (tag g = "" /\
      (more = [github.CallGetLatestRelease context.TODO (owner g) (repo g)] \/
       more = [github.CallGetLatestRelease context.TODO (owner g) (repo g);
               github.CallListReleases context.TODO (owner g) (repo g)
                 {| github.Page := 0; github.PerPage := 1 |}]))).
Proof.
  rewrite (Fetch_requests_resolve g log). unfold resolve.
  destruct (tag g) as [| c t'] eqn:Htag; cbn [String.length Nat.ltb Nat.leb].
  - destruct (resolver_requests g context.TODO log)
      as [more [Hlog [[-> | ->] _]]]; eexists;
      (split; [exact Hlog | split; [reflexivity | right; split; [reflexivity |]]]);
      [now left | now right].
  - eexists. split; [reflexivity | split; [reflexivity |]].
    left. split; [discriminate | reflexivity].
Qed.

(** X4. [GetLatestVersion] does not read the tag of the provider: pinned or
    not, it makes the requests of the resolver and returns the same
    values. *)
Theorem GetLatestVersion_ignores_tag (u : URL) (c : github.Client)
    (o r t : string) (log : list github.Call) :
  GetLatestVersion (mkGitHub u c o r t) log =
    GetLatestVersion (mkGitHub u c o r "") log /\
  exists more,
    snd (GetLatestVersion (mkGitHub u c o r t) log) =
      (log ++ github.CallGetLatestRelease context.TODO o r :: more)%list /\
    (more = [] \/
     more = [github.CallListReleases context.TODO o r
               {| github.Page := 0; github.PerPage := 1 |}]).
Proof.
  split; [reflexivity |].
  destruct (resolver_requests (mkGitHub u c o r t) context.TODO log)
    as [more [Hlog [Hshape _]]].
  exists more. split; [| exact Hshape].
  unfold GetLatestVersion, bind.
  destruct (getAnyLatestRelease (mkGitHub u c o r t) context.TODO log)
    as [[release | e] log1]; exact Hlog.
Qed.

(** X5. The version check and the download agree: when an unpinned [Fetch]
    returns an artifact, [GetLatestVersion] from the same log returns that
    artifact's version with no error, after the same requests. *)
Theorem GetLatestVersion_agrees_with_Fetch (g : gitHub)
    (log log' : list github.Call) (f : File Reader) :
  tag g = "" ->
  Fetch g log = (Ok f, log') ->
  exists page, GetLatestVersion g log = (Version f, page, None, log').
Proof.
  intros Htag. rewrite Fetch_by_resolve. unfold resolve. rewrite Htag.
  cbn [String.length Nat.ltb Nat.leb]. unfold GetLatestVersion, bind.
  destruct (getAnyLatestRelease g context.TODO log) as [[release | e] log1];
    [| discriminate].
  destruct (FilterAssets (repo g) (candidatesOf release)) as [gf | e1];
    [| discriminate].
  destruct (ProcessURL gf) as [[name outputFile] | e2]; [| discriminate].
  intros Heq. injection Heq as <- <-.
  exists (github.GetHTMLURL release). reflexivity.
Qed.

(** X6. [Fetch] returns an artifact exactly when the three stages succeed:
    a release is resolved, the selector picks one of its candidates, and
    that candidate is processed; the artifact is then made of the processed
    bytes, the sanitized name, a new accumulator and the release's tag. *)
Theorem Fetch_succeeds_iff (g : gitHub) (log : list github.Call)
    (f : File Reader) :
  fst (Fetch g log) = Ok f <->
  exists release gf name outputFile,
    fst (resolve g log) = Ok release /\
    FilterAssets (repo g) (candidatesOf release) = Ok gf /\
    ProcessURL gf = Ok (name, outputFile) /\
    f = mkFile outputFile (SanitizeName name (github.GetTagName release))
               sha256.New (github.GetTagName release).
Proof.
  rewrite Fetch_by_resolve.
  destruct (resolve g log) as [[release | e] log1]; cbn [fst].
  - destruct (FilterAssets (repo g) (candidatesOf release)) as [gf | e1] eqn:Hgf.
    + destruct (ProcessURL gf) as [[name outputFile] | e2] eqn:Hproc; cbn [fst].
      * split.
        -- intros H. injection H as <-.
           exists release, gf, name, outputFile. repeat split; assumption.
        -- intros (release' & gf' & name' & out' & Hr & Hg & Hp & ->).
           injection Hr as <-. rewrite Hgf in Hg. injection Hg as <-.
           rewrite Hproc in Hp. injection Hp as <- <-. reflexivity.
      * split; [discriminate |].
        intros (release' & gf' & name' & out' & Hr & Hg & Hp & _).
        injection Hr as <-. rewrite Hgf in Hg. injection Hg as <-.
        rewrite Hproc in Hp. discriminate Hp.
    + cbn [fst]. split; [discriminate |].
      intros (release' & gf' & name' & out' & Hr & Hg & _).
      injection Hr as <-. rewrite Hgf in Hg. discriminate Hg.
  - split; [discriminate |].
    intros (release' & gf' & name' & out' & Hr & _). discriminate Hr.
Qed.

(** X7. [Fetch] fails with the error of the first stage that fails, as that
    stage gave it: the resolver's, else the selector's, else the
    processor's. *)
Theorem Fetch_fails_iff (g : gitHub) (log : list github.Call) (err : error) :
  fst (Fetch g log) = Err err <->
  fst (resolve g log) = Err err \/
  (exists release,
      fst (resolve g log) = Ok release /\
      (FilterAssets (repo g) (candidatesOf release) = Err err \/
       exists gf, FilterAssets (repo g) (candidatesOf release) = Ok gf /\
                  ProcessURL gf = Err err)).
Proof.
  rewrite Fetch_by_resolve.
  destruct (resolve g log) as [[release | e] log1]; cbn [fst].
  - destruct (FilterAssets (repo g) (candidatesOf release)) as [gf | e1] eqn:Hgf.
    + destruct (ProcessURL gf) as [[name outputFile] | e2] eqn:Hproc; cbn [fst].
      * split; [discriminate |].
        intros [H | (release' & Hr & [Hg | (gf' & Hg & Hp)])];
          [discriminate H | |]; injection Hr as <-; rewrite Hgf in Hg;
          [discriminate Hg |].
        injection Hg as <-. rewrite Hproc in Hp. discriminate Hp.
      * split.
        -- intros H. injection H as <-. right. exists release.
           split; [reflexivity |]. right. now exists gf.
        -- intros [H | (release' & Hr & [Hg | (gf' & Hg & Hp)])];
             [discriminate H | |]; injection Hr as <-; rewrite Hgf in Hg;
             [discriminate Hg |].
           injection Hg as <-. rewrite Hproc in Hp. congruence.
    + cbn [fst]. split.
      * intros H. injection H as <-. right. exists release.
        split; [reflexivity |]. now left.
      * intros [H | (release' & Hr & [Hg | (gf' & Hg & Hp)])];
          [discriminate H | |]; injection Hr as <-; rewrite Hgf in Hg;
          [congruence | discriminate Hg].
  - split.
    + intros H. injection H as <-. now left.
    + intros [H | (release' & Hr & _)]; [| discriminate Hr].
      injection H as <-. reflexivity.
Qed.

(** ** Further properties of the URL parser *)

Lemma Join_cons (x y : string) (l : list string) (sep : string) :
  strings.Join (x :: y :: l) sep = x ++ sep ++ strings.Join (y :: l) sep.
Proof. reflexivity. Qed.

(** Joining what was split gives the string back. *)
Lemma Join_Split (s : string) (sep : ascii) :
  strings.Join (strings.Split s sep) (String sep "") = s.
Proof.
  induction s as [| c s' IH]; cbn [strings.Split]; [reflexivity |].
  pose proof (Split_nonempty s' sep) as Hne.
  destruct (strings.Split s' sep) as [| hd tl]; [congruence |].
  destruct (Ascii.eqb_spec c sep) as [-> | Hc].
  - rewrite Join_cons, IH. reflexivity.
  - destruct tl as [| hd2 tl'].
    + cbn [strings.Join] in *. now rewrite IH.
    + rewrite Join_cons in *. rewrite <- IH. reflexivity.
Qed.

(** A string that holds the separator splits in two pieces or more. *)
Lemma Contains_sep_length (s rest : string) (sep : ascii) :
  strings.Contains s (String sep rest) = true ->
  2 <= List.length (strings.Split s sep).
Proof.
  induction s as [| c s' IH]; cbn [strings.Contains strings.HasPrefix].
  - discriminate.
  - pose proof (Split_nonempty s' sep) as Hne.
    cbn [strings.Split]. intros H. apply orb_true_iff in H.
    destruct (Ascii.eqb c sep) eqn:Hc.
    + destruct (strings.Split s' sep); [congruence | cbn; lia].
    + destruct H as [H | H]; [discriminate H |].
      specialize (IH H).
      destruct (strings.Split s' sep) as [| hd tl]; [congruence | exact IH].
Qed.

(** A string without the separator is its own single piece. *)
Lemma no_sep_Split (s : string) (sep : ascii) :
  strings.Contains s (String sep "") = false -> strings.Split s sep = [s].
Proof.
  induction s as [| c s' IH]; cbn [strings.Contains strings.HasPrefix];
    [reflexivity |].
  intros H. apply orb_false_iff in H. destruct H as [Hpre Hrest].
  rewrite andb_true_r in Hpre.
  cbn [strings.Split]. now rewrite Hpre, (IH Hrest).
Qed.

Lemma slice_from_out_of_range {A : Type} (s : list A) (low : nat) :
  List.length s < low -> slice_from s low = None.
Proof.
  intros Hlt. unfold slice_from.
  now replace (Nat.leb low (List.length s)) with false
    by (symmetry; apply Nat.leb_gt; exact Hlt).
Qed.

(** The loop panics when the last segment is [releases]. *)
Lemma tagLoop_panics (ps done rest : list string) (t : string) :
  ps = (done ++ rest)%list ->
  rest <> [] ->
  last rest "" = "releases" ->
  tagLoop ps (List.length done) rest t = Panic "slice bounds out of range".
Proof.
  revert done t. induction rest as [| p rest' IH]; intros done t Hps Hne Hlast;
    [congruence |].
  assert (Hps' : ps = ((done ++ [p]) ++ rest')%list).
  { rewrite <- app_assoc. exact Hps. }
  assert (Hlen : S (List.length done) = List.length (done ++ [p])).
  { rewrite length_app. cbn. lia. }
  cbn [tagLoop]. destruct rest' as [| q rest''].
  - cbn [last] in Hlast. subst p. rewrite String.eqb_refl.
    now rewrite slice_from_out_of_range by length_of ps Hps.
  - destruct (String.eqb p "releases").
    + rewrite slice_from_in_range by length_of ps Hps.
      rewrite Hlen. apply IH; [exact Hps' | discriminate | exact Hlast].
    + rewrite Hlen. apply IH; [exact Hps' | discriminate | exact Hlast].
Qed.

(** What a provider returned by the parser is made of. *)
Lemma newGitHub_Ret_fields (Getenv : string -> string) (u : URL) (g : gitHub) :
  newGitHub Getenv u = Ret g ->
  index (strings.Split (Path u) "/") 1 = Some (owner g) /\
  index (strings.Split (Path u) "/") 2 = Some (repo g) /\
  url g = u /\
  client g =
    NewClient (if String.eqb (Getenv "GITHUB_AUTH_TOKEN") "" then None
               else Some (Getenv "GITHUB_AUTH_TOKEN")) /\
  (strings.Contains (Path u) "/releases/" = false -> tag g = "").
Proof.
  unfold newGitHub. cbv zeta.
  destruct (Nat.ltb (List.length (strings.Split (Path u) "/")) 2);
    [discriminate |].
  destruct (strings.Contains (Path u) "/releases/").
  - destruct (tagLoop (strings.Split (Path u) "/") 0
                (strings.Split (Path u) "/") "") as [t | e | m];
      try discriminate.
    destruct (index (strings.Split (Path u) "/") 1) as [o |]; [| discriminate].
    destruct (index (strings.Split (Path u) "/") 2) as [r |]; [| discriminate].
    intros H. injection H as <-. cbn. repeat split. discriminate.
  - destruct (index (strings.Split (Path u) "/") 1) as [o |]; [| discriminate].
    destruct (index (strings.Split (Path u) "/") 2) as [r |]; [| discriminate].
    intros H. injection H as <-. cbn. repeat split.
Qed.

Lemma tagLoop_never_raises (ps rest : list string) (i : nat) (t : string)
    (err : error) :
  tagLoop ps i rest t <> Raise err.
Proof.
  revert i t. induction rest as [| p rest' IH]; intros i t; cbn [tagLoop];
    [discriminate |].
  destruct (String.eqb p "releases"); [| apply IH].
  destruct (slice_from ps (i + 2)); [apply IH | discriminate].
Qed.

Lemma newGitHub_short (Getenv : string -> string) (u : URL) :
  List.length (strings.Split (Path u) "/") < 2 ->
  newGitHub Getenv u = Raise (parseError u).
Proof.
  intros Hlen. unfold newGitHub. cbv zeta.
  now replace (Nat.ltb (List.length (strings.Split (Path u) "/")) 2) with true
    by (symmetry; apply Nat.ltb_lt; exact Hlen).
Qed.

Lemma newGitHub_Raise (Getenv : string -> string) (u : URL) (err : error) :
  newGitHub Getenv u = Raise err ->
  err = parseError u /\ List.length (strings.Split (Path u) "/") < 2.
Proof.
  unfold newGitHub. cbv zeta.
  destruct (Nat.ltb (List.length (strings.Split (Path u) "/")) 2) eqn:Hlt.
  - intros H. injection H as <-. split; [reflexivity |].
    now apply Nat.ltb_lt.
  - destruct (strings.Contains (Path u) "/releases/").
    + destruct (tagLoop (strings.Split (Path u) "/") 0
                  (strings.Split (Path u) "/") "") as [t | e | m] eqn:Hloop.
      * destruct (index (strings.Split (Path u) "/") 1);
          [destruct (index (strings.Split (Path u) "/") 2) |]; discriminate.
      * now destruct (tagLoop_never_raises _ _ _ _ _ Hloop).
      * discriminate.
    + destruct (index (strings.Split (Path u) "/") 1);
        [destruct (index (strings.Split (Path u) "/") 2) |]; discriminate.
Qed.

(** X8. The parser returns its error exactly for a path without any [/];
    it builds no other error. *)
Theorem newGitHub_parse_error_iff (Getenv : string -> string) (u : URL) :
  (newGitHub Getenv u = Raise (parseError u) <->
   strings.Contains (Path u) "/" = false) /\
  (forall err, newGitHub Getenv u = Raise err -> err = parseError u).
Proof.
  split.
  - split.
    + intros H. apply newGitHub_Raise in H. destruct H as [_ Hlen].
      destruct (strings.Contains (Path u) "/") eqn:Hc; [| reflexivity].
      apply Contains_sep_length in Hc. lia.
    + intros Hc. apply newGitHub_short.
      rewrite (no_sep_Split _ _ Hc). cbn. lia.
  - intros err H. now apply newGitHub_Raise in H.
Qed.

(** X9. The parser panics in exactly two cases: the path holds a single
    [/], so that the split has no element at index 2; or the path holds
    [/releases/] and its last segment is [releases], so that the slice of
    the loop starts past the end. *)
Theorem newGitHub_panic_iff (Getenv : string -> string) (u : URL) :
  (exists msg, newGitHub Getenv u = Panic msg) <->
  List.length (strings.Split (Path u) "/") = 2 \/
  (strings.Contains (Path u) "/releases/" = true /\
   last (strings.Split (Path u) "/") "" = "releases").
Proof.
  pose proof (Split_nonempty (Path u) "/") as Hne.
  split.
  - intros [msg H]. unfold newGitHub in H. cbv zeta in H.
    destruct (Nat.ltb (List.length (strings.Split (Path u) "/")) 2) eqn:Hlt;
      [discriminate |].
    apply Nat.ltb_ge in Hlt.
    destruct (strings.Contains (Path u) "/releases/") eqn:Hc.
    + destruct (string_dec (last (strings.Split (Path u) "/") "") "releases")
        as [Hlast | Hlast]; [right; now split |].
      destruct (tagLoop_returns (strings.Split (Path u) "/") []
                  (strings.Split (Path u) "/") "" eq_refl Hlast) as [t Ht].
      cbn [List.length] in Ht. rewrite Ht in H.
      destruct (strings.Split (Path u) "/") as [| s0 [| s1 [| s2 rest]]];
        cbn in Hlt; try lia; [now left | discriminate H].
    + destruct (strings.Split (Path u) "/") as [| s0 [| s1 [| s2 rest]]];
        cbn in Hlt; try lia; [now left | discriminate H].
  - intros [Hlen | [Hc Hlast]].
    + unfold newGitHub. cbv zeta.
      destruct (strings.Split (Path u) "/") as [| s0 [| s1 [| s2 rest]]];
        cbn in Hlen; try lia.
      cbn [List.length Nat.ltb Nat.leb].
      destruct (if strings.Contains (Path u) "/releases/"
                then tagLoop [s0; s1] 0 [s0; s1] "" else Ret "")
        as [t | e | m] eqn:Hloop.
      * eexists. reflexivity.
      * destruct (strings.Contains (Path u) "/releases/");
          [now destruct (tagLoop_never_raises _ _ _ _ _ Hloop) | discriminate].
      * eexists. reflexivity.
    + pose proof (Contains_sep_length _ _ _ Hc) as Hlen.
      unfold newGitHub. cbv zeta. rewrite Hc.
      replace (Nat.ltb (List.length (strings.Split (Path u) "/")) 2) with false
        by (symmetry; apply Nat.ltb_ge; exact Hlen).
      pose proof (tagLoop_panics (strings.Split (Path u) "/") []
                    (strings.Split (Path u) "/") "" eq_refl Hne Hlast) as Hp.
      cbn [List.length] in Hp. rewrite Hp. eexists. reflexivity.
Qed.

(** X10. After [/releases/] and one qualifier segment, the rest of the path
    is the tag, slashes included, whatever precedes [/releases/]: a tag
    such as [feature/v1] comes back whole. *)
Theorem newGitHub_tag_after_qualifier (Getenv : string -> string)
    (sch host pre q t : string) :
  strings.Split q "/" = [q] ->
  q <> "releases" ->
  ~ In "releases" (strings.Split t "/") ->
  exists g,
    newGitHub Getenv
      (mkURL sch host (pre ++ "/releases/" ++ q ++ String "/" t)) = Ret g /\
    tag g = t.
Proof.
  intros Hq Hqne Hnot.
  destruct (newGitHub_releases Getenv sch host pre (q ++ String "/" t) q
              (strings.Split t "/")) as [g [Hg Htag]].
  - now rewrite Split_app_sep, Hq.
  - intros [H | H]; [now apply Hqne | now apply Hnot].
  - exists g. split; [exact Hg |].
    rewrite Htag. apply (Join_Split t "/").
Qed.

(** X11. A path that ends with the qualifier, such as
    [/owner/repo/releases/latest], pins nothing: the tag is empty. *)
Theorem newGitHub_qualifier_only (Getenv : string -> string)
    (sch host pre q : string) :
  strings.Split q "/" = [q] ->
  q <> "releases" ->
  exists g,
    newGitHub Getenv (mkURL sch host (pre ++ "/releases/" ++ q)) = Ret g /\
    tag g = "".
Proof.
  intros Hq Hqne.
  destruct (newGitHub_releases Getenv sch host pre q q []) as [g [Hg Htag]].
  - exact Hq.
  - intros [H | []]. now apply Hqne.
  - exists g. split; [exact Hg | exact Htag].
Qed.

Lemma Split_owner_repo_path (o r : string) :
  strings.Split o "/" = [o] ->
  strings.Split r "/" = [r] ->
  strings.Split (String "/" (o ++ String "/" r)) "/" = [""; o; r].
Proof.
  intros Ho Hr.
  change (String "/" (o ++ String "/" r)) with ("" ++ String "/" (o ++ String "/" r)).
  now rewrite !Split_app_sep, Ho, Hr.
Qed.

(** The URL of a repository. *)
Lemma newGitHub_plain (Getenv : string -> string)
    (sch host o r : string) :
  strings.Split o "/" = [o] ->
  strings.Split r "/" = [r] ->
  r <> "releases" ->
  exists g,
    newGitHub Getenv (mkURL sch host (String "/" (o ++ String "/" r))) = Ret g /\
    owner g = o /\ repo g = r /\ tag g = "".
Proof.
  intros Ho Hr Hrne. unfold newGitHub. cbv zeta. cbn [Path].
  rewrite (Split_owner_repo_path o r Ho Hr).
  cbn [List.length Nat.ltb Nat.leb index nth_error].
  destruct (strings.Contains (String "/" (o ++ String "/" r)) "/releases/").
  - cbn [tagLoop]. change (String.eqb "" "releases") with false. cbv iota.
    destruct (String.eqb_spec r "releases") as [Hr' | _]; [contradiction |].
    destruct (String.eqb o "releases"); cbn; eexists; repeat split.
  - eexists. repeat split.
Qed.

(** X12. The URL of a repository, [/owner/repo] with no [/] inside either
    name, is parsed into that owner and that repository with an empty tag,
    unless the repository is named [releases]. *)
Theorem newGitHub_plain_repo (Getenv : string -> string)
    (sch host o r : string) :
  strings.Split o "/" = [o] ->
  strings.Split r "/" = [r] ->
  r <> "releases" ->
  exists g,
    newGitHub Getenv (mkURL sch host (String "/" (o ++ String "/" r))) = Ret g /\
    owner g = o /\ repo g = r /\ tag g = "".
Proof.
  intros Ho Hr Hrne. exact (newGitHub_plain Getenv sch host o r Ho Hr Hrne).
Qed.

(** X13. Owner, repository and tag are read from the path alone: two URLs
    with the same path, whatever their scheme and host and whatever the
    environment, are parsed alike, up to the URL named in the error. *)
Theorem newGitHub_path_only (Getenv Getenv' : string -> string) (u u' : URL) :
  Path u = Path u' ->
  (forall g, newGitHub Getenv u = Ret g ->
     exists g', newGitHub Getenv' u' = Ret g' /\
                owner g' = owner g /\ repo g' = repo g /\ tag g' = tag g) /\
  (forall err, newGitHub Getenv u = Raise err ->
     newGitHub Getenv' u' = Raise (parseError u')) /\
  (forall msg, newGitHub Getenv u = Panic msg ->
     newGitHub Getenv' u' = Panic msg).
Proof.
  intros Hpath. unfold newGitHub. cbv zeta. rewrite <- Hpath.
  destruct (Nat.ltb (List.length (strings.Split (Path u) "/")) 2).
  - split; [| split]; intros x H; try discriminate H. reflexivity.
  - destruct (if strings.Contains (Path u) "/releases/"
              then tagLoop (strings.Split (Path u) "/") 0
                     (strings.Split (Path u) "/") ""
              else Ret "") as [t | e | m] eqn:Hloop.
    + destruct (index (strings.Split (Path u) "/") 1) as [o |];
        [destruct (index (strings.Split (Path u) "/") 2) as [r |] |];
        (split; [| split]); intros x H; try discriminate H; try exact H.
      injection H as <-. eexists. split; [reflexivity |].
      cbn. repeat split.
    + exfalso. destruct (strings.Contains (Path u) "/releases/");
        [now destruct (tagLoop_never_raises _ _ _ _ _ Hloop) | discriminate].
    + split; [| split]; intros x H; try discriminate H. exact H.
Qed.

(** X14. Parsing a release URL and fetching compose: for
    [/owner/repo/releases/q/t] the one request of [Fetch] is for the
    release of tag [t] of [owner/repo]. *)
Theorem parse_then_Fetch_pinned (Getenv : string -> string)
    (sch host o r q t : string) (log : list github.Call) :
  strings.Split o "/" = [o] ->
  strings.Split r "/" = [r] ->
  strings.Split q "/" = [q] ->
  q <> "releases" ->
  ~ In "releases" (strings.Split t "/") ->
  t <> "" ->
  exists g,
    newGitHub Getenv
      (mkURL sch host
         (String "/" (o ++ String "/" r) ++ "/releases/" ++ q ++ String "/" t))
      = Ret g /\
    owner g = o /\ repo g = r /\ tag g = t /\
    snd (Fetch g log) =
      (log ++ [github.CallGetReleaseByTag context.TODO o r t])%list.
Proof.
  intros Ho Hr Hq Hqne Hnot Hne.
  destruct (newGitHub_releases Getenv sch host (String "/" (o ++ String "/" r))
              (q ++ String "/" t) q (strings.Split t "/")) as [g [Hg Htag]].
  - now rewrite Split_app_sep, Hq.
  - intros [H | H]; [now apply Hqne | now apply Hnot].
  - rewrite (Join_Split t "/") in Htag.
    destruct (newGitHub_Ret_fields _ _ _ Hg) as [Ho' [Hr' _]].
    cbn [Path] in Ho', Hr'.
    change ("/releases/" ++ q ++ String "/" t)
      with (String "/" ("releases" ++ String "/" (q ++ String "/" t)))
      in Ho', Hr'.
    rewrite Split_app_sep, (Split_owner_repo_path o r Ho Hr) in Ho', Hr'.
    cbn [app index nth_error] in Ho', Hr'.
    injection Ho' as Ho'. injection Hr' as Hr'.
    exists g. repeat split; try congruence.
    rewrite Fetch_requests_resolve. unfold resolve.
    rewrite Htag, (ltb_length_nonempty _ Hne).
    unfold Repositories_GetReleaseByTag. cbn [snd]. now rewrite <- Ho', <- Hr'.
Qed.

(** X15. Parsing the URL of a repository and fetching compose: for
    [/owner/repo] the first request of [Fetch] is for the latest release of
    [owner/repo], and the only other one it can make is the listing. *)
Theorem parse_then_Fetch_latest (Getenv : string -> string)
    (sch host o r : string) (log : list github.Call) :
  strings.Split o "/" = [o] ->
  strings.Split r "/" = [r] ->
  r <> "releases" ->
  exists g more,
    newGitHub Getenv (mkURL sch host (String "/" (o ++ String "/" r))) = Ret g /\
    snd (Fetch g log) =
      (log ++ github.CallGetLatestRelease context.TODO o r :: more)%list /\
    (more = [] \/
     more = [github.CallListReleases context.TODO o r
               {| github.Page := 0; github.PerPage := 1 |}]).
Proof.
  intros Ho Hr Hrne.
  destruct (newGitHub_plain Getenv sch host o r Ho Hr Hrne)
    as [g [Hg [Hog [Hrg Htag]]]].
  destruct (resolver_requests g context.TODO log) as [more [Hlog [Hshape _]]].
  exists g, more. split; [exact Hg |].
  rewrite Fetch_requests_resolve. unfold resolve. rewrite Htag.
  cbn [String.length Nat.ltb Nat.leb].
  rewrite Hog, Hrg in *. split; [exact Hlog | exact Hshape].
Qed.

(** X16. The credential only selects the client: with
    [GITHUB_AUTH_TOKEN] unset or empty the provider gets the client built
    without a token, otherwise the client built with that value; the
    provider keeps the URL it was parsed from. *)
Theorem newGitHub_client_from_token (Getenv : string -> string) (u : URL)
    (g : gitHub) :
  newGitHub Getenv u = Ret g ->
  url g = u /\
  (Getenv "GITHUB_AUTH_TOKEN" = "" -> client g = NewClient None) /\
  (Getenv "GITHUB_AUTH_TOKEN" <> "" ->
   client g = NewClient (Some (Getenv "GITHUB_AUTH_TOKEN"))).
Proof.
  intros Hg.
  destruct (newGitHub_Ret_fields _ _ _ Hg) as [_ [_ [Hurl [Hclient _]]]].
  split; [exact Hurl |].
  destruct (String.eqb_spec (Getenv "GITHUB_AUTH_TOKEN") "") as [He | He];
    split; intros H; congruence.
Qed.

(** The segments [segs] stand next to each other in the path [ps]. *)
Definition hasSegments (segs ps : list string) : Prop :=
  exists before after, ps = (before ++ segs ++ after)%list.

(** C6 as the specification words it: a path that contains the segments
    [/releases/tag/v1.2.3] is parsed into a provider whose tag is
    [v1.2.3]. *)
Definition release_view_tag_is_segment (Getenv : string -> string) (u : URL)
    : Prop :=
  hasSegments ["releases"; "tag"; "v1.2.3"] (strings.Split (Path u) "/") ->
  exists g, newGitHub Getenv u = Ret g /\ tag g = "v1.2.3".

End Provider.

(** ** The theorems at the sample repository *)

Lemma getAnyLatestRelease_fallback_first_witness :
  getAnyLatestRelease (sample_provider (Ok [sample_R1; sample_R2]) "")
    context.TODO [] =
  (Ok sample_R1,
   [github.CallGetLatestRelease context.TODO "owner" "repo";
    github.CallListReleases context.TODO "owner" "repo"
      {| github.Page := 0; github.PerPage := 1 |}]) /\
  fst (GetLatestVersion (sample_provider (Ok [sample_R1; sample_R2]) "") []) =
  ("v2.0.0-rc1", "https://github.com/owner/repo/releases/tag/v2.0.0-rc1", None).
Proof.
  destruct (getAnyLatestRelease_fallback_first (list Z) sample_FilterAssets
              sample_ProcessURL sample_SanitizeName
              (sample_provider (Ok [sample_R1; sample_R2]) "") context.TODO
              "Not Found" sample_R1 [sample_R2] [] eq_refl eq_refl)
    as [Hres Hentry].
  split; [exact Hres | exact (proj1 (Hentry eq_refl))].
Defined.

Lemma getAnyLatestRelease_empty_list_witness :
  fst (getAnyLatestRelease (sample_provider (Ok []) "") context.TODO []) =
    Err sample_notFound /\
  fst (run (Fetch (list Z) sample_FilterAssets sample_ProcessURL
              sample_SanitizeName (sample_provider (Ok []) ""))) =
    Err sample_notFound.
Proof.
  destruct (getAnyLatestRelease_empty_list (list Z) sample_FilterAssets
              sample_ProcessURL sample_SanitizeName
              (sample_provider (Ok []) "") context.TODO "Not Found" []
              eq_refl eq_refl) as [Hres Hentry].
  split; [exact Hres | exact (proj2 (Hentry eq_refl) eq_refl)].
Defined.

Lemma getAnyLatestRelease_list_error_witness :
  fst (getAnyLatestRelease (sample_provider (Err sample_rateLimit) "")
         context.TODO []) =
    Err sample_rateLimit /\
  fst (run (Fetch (list Z) sample_FilterAssets sample_ProcessURL
              sample_SanitizeName (sample_provider (Err sample_rateLimit) ""))) =
    Err sample_rateLimit.
Proof.
  destruct (getAnyLatestRelease_list_error (list Z) sample_FilterAssets
              sample_ProcessURL sample_SanitizeName
              (sample_provider (Err sample_rateLimit) "") context.TODO
              "Not Found" sample_rateLimit [] eq_refl eq_refl)
    as [Hres Hentry].
  split; [exact Hres | exact (proj2 (Hentry eq_refl) eq_refl)].
Defined.

Lemma Fetch_pinned_single_call_witness :
  fst (run (Fetch (list Z) sample_FilterAssets sample_ProcessURL
              sample_SanitizeName
              (sample_provider (Ok [sample_R1; sample_R2]) "v0.0.1"))) =
    Err sample_notFound /\
  snd (run (Fetch (list Z) sample_FilterAssets sample_ProcessURL
              sample_SanitizeName
              (sample_provider (Ok [sample_R1; sample_R2]) "v0.0.1"))) =
    [github.CallGetReleaseByTag context.TODO "owner" "repo" "v0.0.1"].
Proof.
  destruct (Fetch_pinned_single_call (list Z) sample_FilterAssets
              sample_ProcessURL sample_SanitizeName
              (sample_provider (Ok [sample_R1; sample_R2]) "v0.0.1"))
    as [Hcalls [_ Herr]].
  - discriminate.
  - split; [apply Herr; reflexivity | exact Hcalls].
Defined.

Lemma Fetch_artifact_fields_witness :
  fst (run (Fetch (list Z) sample_FilterAssets sample_ProcessURL
              sample_SanitizeName
              (sample_provider (Ok [sample_R1; sample_R2]) ""))) =
    Ok sample_File /\
  Hash sample_File = sha256.New /\
  sha256.Sum (sha256.Write (Hash sample_File) []) [] = sha256.empty_digest.
Proof.
  split; [reflexivity |].
  destruct (Fetch_artifact_fields (list Z) sample_FilterAssets
              sample_ProcessURL sample_SanitizeName
              (sample_provider (Ok [sample_R1; sample_R2]) "") []
              [github.CallGetLatestRelease context.TODO "owner" "repo";
               github.CallListReleases context.TODO "owner" "repo"
                 {| github.Page := 0; github.PerPage := 1 |}]
              sample_File eq_refl) as [Hhash [Hsum _]].
  split; [exact Hhash | exact Hsum].
Defined.

Lemma newGitHub_owner_repo_witness :
  newGitHub sample_NewClient sample_URL_String sample_Getenv
    (mkURL "" "" "github.com") =
    Raise (errorString
      "Error parsing Github URL github.com, can't find owner and repo") /\
  exists g,
    newGitHub sample_NewClient sample_URL_String sample_Getenv
      (mkURL "https" "github.com" "/owner/repo/tree/main") = Ret g /\
    owner g = "owner" /\ repo g = "repo".
Proof.
  split.
  - apply (proj1 (newGitHub_owner_repo sample_NewClient sample_URL_String
                    sample_Getenv (mkURL "" "" "github.com"))).
    cbn. lia.
  - apply (proj1 (proj2 (newGitHub_owner_repo sample_NewClient
                           sample_URL_String sample_Getenv
                           (mkURL "https" "github.com" "/owner/repo/tree/main")))
             "" "owner" "repo" ["tree"; "main"]).
    + reflexivity.
    + cbn. discriminate.
Defined.

(** ** Where the specification's wording fails *)

(** C3 fails as worded: the tag of the download URL keeps the asset's
    name. *)
Lemma download_tag_keeps_asset_name :
  ~ download_tag_is_segment sample_NewClient sample_URL_String sample_Getenv
      (mkURL "https" "github.com"
         "/owner/repo/releases/download/v1.2.3/asset.tar.gz").
Proof.
  intros [g [Hg Htag]]. cbv in Hg. injection Hg as <-. discriminate Htag.
Qed.

(** C6 fails as worded: with a slash after the tag the path still contains
    the three segments, and the tag keeps the slash. *)
Lemma release_view_trailing_slash :
  newGitHub sample_NewClient sample_URL_String sample_Getenv
    (mkURL "https" "github.com" "/owner/repo/releases/tag/v1.2.3/") =
    Ret (mkGitHub (mkURL "https" "github.com" "/owner/repo/releases/tag/v1.2.3/")
           (sample_NewClient None) "owner" "repo" "v1.2.3/") /\
  ~ release_view_tag_is_segment sample_NewClient sample_URL_String sample_Getenv
      (mkURL "https" "github.com" "/owner/repo/releases/tag/v1.2.3/").
Proof.
  split; [reflexivity |].
  intros H. destruct H as [g [Hg Htag]].
  - exists [""; "owner"; "repo"], [""]. reflexivity.
  - cbv in Hg. injection Hg as <-. discriminate Htag.
Qed.

(** C4 fails as worded: [/owner/] has one non-empty segment, and the parser
    returns a provider, with an empty repository name. *)
Lemma newGitHub_empty_repo_accepted :
  newGitHub sample_NewClient sample_URL_String sample_Getenv
    (mkURL "https" "github.com" "/owner/") =
    Ret (mkGitHub (mkURL "https" "github.com" "/owner/")
           (sample_NewClient None) "owner" "" "") /\
  ~ parses_first_two sample_NewClient sample_URL_String sample_Getenv
      (mkURL "https" "github.com" "/owner/").
Proof.
  split; [reflexivity |].
  unfold parses_first_two. cbn. discriminate.
Qed.

(** C9 fails as worded: a caller that holds a context with a deadline sees
    the request of [Fetch] made under [context.TODO()]. *)
Lemma Fetch_ignores_caller_context :
  snd (run (Fetch (list Z) sample_FilterAssets sample_ProcessURL
              sample_SanitizeName
              (sample_provider (Ok [sample_R1; sample_R2]) "v2.0.0-rc1"))) =
    [github.CallGetReleaseByTag context.TODO "owner" "repo" "v2.0.0-rc1"] /\
  ~ threads (context.WithDeadline context.Background 30)
      (snd (run (Fetch (list Z) sample_FilterAssets sample_ProcessURL
                   sample_SanitizeName
                   (sample_provider (Ok [sample_R1; sample_R2]) "v2.0.0-rc1")))).
Proof.
  split; [reflexivity |].
  intros H. cbv in H. inversion H as [| c l Hc Hl]. discriminate Hc.
Qed.

(** ** The further properties at the sample repository *)

Lemma getAnyLatestRelease_no_fallback_witness :
  getAnyLatestRelease
    (mkGitHub sample_url (sample_failing_client sample_forbidden)
       "owner" "repo" "") context.TODO [] =
  (Err sample_forbidden,
   [github.CallGetLatestRelease context.TODO "owner" "repo"]).
Proof.
  apply (getAnyLatestRelease_no_fallback (list Z) sample_FilterAssets
           sample_ProcessURL sample_SanitizeName
           (mkGitHub sample_url (sample_failing_client sample_forbidden)
              "owner" "repo" "") context.TODO sample_forbidden []).
  - reflexivity.
  - intros msg H. inversion H.
Defined.

Lemma GetLatestVersion_agrees_with_Fetch_witness :
  exists page,
    GetLatestVersion (sample_provider (Ok [sample_R1; sample_R2]) "") [] =
    ("v2.0.0-rc1", page, None,
     [github.CallGetLatestRelease context.TODO "owner" "repo";
      github.CallListReleases context.TODO "owner" "repo"
        {| github.Page := 0; github.PerPage := 1 |}]).
Proof.
  exact (GetLatestVersion_agrees_with_Fetch (list Z) sample_FilterAssets
           sample_ProcessURL sample_SanitizeName
           (sample_provider (Ok [sample_R1; sample_R2]) "") [] _ sample_File
           eq_refl eq_refl).
Defined.

Lemma newGitHub_tag_after_qualifier_witness :
  exists g,
    newGitHub sample_NewClient sample_URL_String sample_Getenv
      (mkURL "https" "github.com" "/owner/repo/releases/tag/feature/v1") = Ret g /\
    tag g = "feature/v1".
Proof.
  apply (newGitHub_tag_after_qualifier sample_NewClient sample_URL_String
           sample_Getenv "https" "github.com" "/owner/repo" "tag" "feature/v1").
  - reflexivity.
  - discriminate.
  - cbn. intros [H | [H | []]]; discriminate H.
Defined.

Lemma newGitHub_qualifier_only_witness :
  exists g,
    newGitHub sample_NewClient sample_URL_String sample_Getenv
      (mkURL "https" "github.com" "/owner/repo/releases/latest") = Ret g /\
    tag g = "".
Proof.
  apply (newGitHub_qualifier_only sample_NewClient sample_URL_String
           sample_Getenv "https" "github.com" "/owner/repo" "latest").
  - reflexivity.
  - discriminate.
Defined.

Lemma newGitHub_plain_repo_witness :
  exists g,
    newGitHub sample_NewClient sample_URL_String sample_Getenv
      (mkURL "https" "github.com" "/owner/repo") = Ret g /\
    owner g = "owner" /\ repo g = "repo" /\ tag g = "".
Proof.
  apply (newGitHub_plain_repo sample_NewClient sample_URL_String
           sample_Getenv "https" "github.com" "owner" "repo").
  - reflexivity.
  - reflexivity.
  - discriminate.
Defined.

Lemma newGitHub_path_only_witness :
  exists g',
    newGitHub sample_NewClient sample_URL_String sample_token_Getenv
      (mkURL "http" "example.org" "/owner/repo/releases/tag/v1.2.3") = Ret g' /\
    owner g' = "owner" /\ repo g' = "repo" /\ tag g' = "v1.2.3".
Proof.
  apply (proj1 (newGitHub_path_only sample_NewClient sample_URL_String
                  sample_Getenv sample_token_Getenv
                  (mkURL "https" "github.com" "/owner/repo/releases/tag/v1.2.3")
                  (mkURL "http" "example.org" "/owner/repo/releases/tag/v1.2.3")
                  eq_refl)
           (mkGitHub
              (mkURL "https" "github.com" "/owner/repo/releases/tag/v1.2.3")
              (sample_NewClient None) "owner" "repo" "v1.2.3")).
  reflexivity.
Defined.

Lemma parse_then_Fetch_pinned_witness :
  exists g,
    newGitHub sample_NewClient sample_URL_String sample_Getenv
      (mkURL "https" "github.com" "/owner/repo/releases/download/v2.0.0-rc1")
      = Ret g /\
    owner g = "owner" /\ repo g = "repo" /\ tag g = "v2.0.0-rc1" /\
    snd (Fetch (list Z) sample_FilterAssets sample_ProcessURL
           sample_SanitizeName g []) =
      [github.CallGetReleaseByTag context.TODO "owner" "repo" "v2.0.0-rc1"].
Proof.
  apply (parse_then_Fetch_pinned (list Z) sample_FilterAssets sample_ProcessURL
           sample_SanitizeName sample_NewClient sample_URL_String sample_Getenv
           "https" "github.com" "owner" "repo" "download" "v2.0.0-rc1" []).
  - reflexivity.
  - reflexivity.
  - reflexivity.
  - discriminate.
  - cbn. intros [H | []]. discriminate H.
  - discriminate.
Defined.

Lemma parse_then_Fetch_latest_witness :
  exists g more,
    newGitHub sample_NewClient sample_URL_String sample_Getenv
      (mkURL "https" "github.com" "/owner/repo") = Ret g /\
    snd (Fetch (list Z) sample_FilterAssets sample_ProcessURL
           sample_SanitizeName g []) =
      github.CallGetLatestRelease context.TODO "owner" "repo" :: more /\
    (more = [] \/
     more = [github.CallListReleases context.TODO "owner" "repo"
               {| github.Page := 0; github.PerPage := 1 |}]).
Proof.
  apply (parse_then_Fetch_latest (list Z) sample_FilterAssets sample_ProcessURL
           sample_SanitizeName sample_NewClient sample_URL_String sample_Getenv
           "https" "github.com" "owner" "repo" []).
  - reflexivity.
  - reflexivity.
  - discriminate.
Defined.

Lemma newGitHub_client_from_token_witness :
  client (mkGitHub sample_url (sample_NewClient (Some "secret"))
            "owner" "repo" "") =
  sample_NewClient (Some "secret").
Proof.
  apply (proj2 (proj2 (newGitHub_client_from_token sample_NewClient
                         sample_URL_String sample_token_Getenv sample_url
                         (mkGitHub sample_url (sample_NewClient (Some "secret"))
                            "owner" "repo" "")
                         eq_refl))).
  discriminate.
Defined.

End providers.
